(** * FOOD_DONATION: the donation service of [app.py]

    A shallow embedding of the Flask application: the JSON payload as Python
    values, the [donations] table as a finite map from primary key to row,
    the SQLAlchemy session as a per-request unit of work, and the three
    route handlers [get_donations], [add_donation] and [claim_donation]
    written in a small state and exception monad. *)

From stdpp Require Import gmap strings list fin_maps pretty.
From Stdlib Require Import Ascii ZArith QArith Lia.

Local Open Scope Z_scope.
Set Warnings "-register-all".

(** ** Python values *)

(** A Python [float]: the IEEE special values, or a finite number
    [(-1)^neg * m * 2^e]. *)
Inductive pyfloat :=
  | FNan
  | FInf (neg : bool)
  | FFinite (neg : bool) (m : N) (e : Z).

(** What [request.json] can hold: the Python image of a JSON document.
    A [dict] keeps its insertion order, so it is an association list. *)
Inductive pyval :=
  | PyNone
  | PyBool (b : bool)
  | PyInt (z : Z)
  | PyFloat (f : pyfloat)
  | PyStr (s : string)
  | PyList (l : list pyval)
  | PyDict (kv : list (string * pyval)).

(** The exceptions the handlers can meet. [UnsupportedMediaType] and
    [BadRequest] are the HTTP exceptions 415 and 400 of the framework. *)
Inductive exn :=
  | TypeError
  | AttributeError
  | OverflowError
  | IntegrityError
  | InterfaceError
  | OperationalError
  | StaleDataError
  | InvalidRequestError
  | UnsupportedMediaType
  | BadRequest.

Inductive result (A : Type) :=
  | Return (a : A)
  | Raise (e : exn).
Arguments Return {A} a.
Arguments Raise {A} e.

(** The parts of the Python runtime and of the database driver that the
    source relies on but does not contain. *)
Class Runtime := {
  (** [repr(x)] of a float: the shortest decimal that reads back as [x]. *)
  float_repr : pyfloat → string;
  (** [repr(s)] of a str: quoted and escaped. *)
  str_repr : string → string;
  (** What the driver stores when a value that is neither [None] nor a str
      is bound to a VARCHAR column: [Some None] is NULL, [None] is a value
      the driver refuses. *)
  bind_other : pyval → option (option string);
}.

Definition float_is_zero (f : pyfloat) : bool :=
  match f with
  | FFinite _ m _ => (m =? 0)%N
  | _ => false
  end.

(** [bool(v)]: the truth value [not v] negates. *)
Definition truthy (v : pyval) : bool :=
  match v with
  | PyNone => false
  | PyBool b => b
  | PyInt z => negb (z =? 0)
  | PyFloat f => negb (float_is_zero f)
  | PyStr s => negb (String.eqb s "")
  | PyList l => match l with [] => false | _ => true end
  | PyDict kv => match kv with [] => false | _ => true end
  end.

(** [k in d] and the lookup behind [d.get(k, default)] on a dict. *)
Fixpoint dict_lookup (k : string) (kv : list (string * pyval)) : option pyval :=
  match kv with
  | [] => None
  | (k', v) :: rest => if String.eqb k k' then Some v else dict_lookup k rest
  end.

Definition dict_has (k : string) (kv : list (string * pyval)) : bool :=
  match dict_lookup k kv with Some _ => true | None => false end.

(** [k in s] on a str: substring search. *)
Fixpoint substring_of (k s : string) : bool :=
  String.prefix k s ||
  match s with
  | EmptyString => false
  | String _ rest => substring_of k rest
  end.

(** [k == v] for a str [k]. *)
Definition str_equals (k : string) (v : pyval) : bool :=
  match v with
  | PyStr s => String.eqb k s
  | _ => false
  end.

(** [k in v] for a str [k]; numbers, booleans and [None] are not
    containers. *)
Definition py_in (k : string) (v : pyval) : result bool :=
  match v with
  | PyDict kv => Return (dict_has k kv)
  | PyList l => Return (existsb (str_equals k) l)
  | PyStr s => Return (substring_of k s)
  | PyNone | PyBool _ | PyInt _ | PyFloat _ => Raise TypeError
  end.

(** [v.get(k, default)]: only a dict has the method. *)
Definition py_get (v : pyval) (k : string) (dflt : pyval) : result pyval :=
  match v with
  | PyDict kv => Return (default dflt (dict_lookup k kv))
  | _ => Raise AttributeError
  end.

(** ** Rendering values as text *)

Section Rendering.
Context {rt : Runtime}.

(** [repr(v)]. *)
Fixpoint py_repr (v : pyval) : string :=
  match v with
  | PyNone => "None"
  | PyBool true => "True"
  | PyBool false => "False"
  | PyInt z => pretty z
  | PyFloat f => float_repr f
  | PyStr s => str_repr s
  | PyList l => "[" +:+ String.concat ", " (map py_repr l) +:+ "]"
  | PyDict kv =>
      "{" +:+ String.concat ", "
                (map (λ p, str_repr (fst p) +:+ ": " +:+ py_repr (snd p)) kv)
          +:+ "}"
  end.

(** [str(v)], which is what a replacement field [{v}] of an f-string
    without a format spec inserts. *)
Definition py_str (v : pyval) : string :=
  match v with
  | PyStr s => s
  | _ => py_repr v
  end.
End Rendering.

(** [str(v)] of an attribute loaded from a nullable VARCHAR column. *)
Definition column_str (v : option string) : string :=
  match v with
  | Some s => s
  | None => "None"
  end.

(** ** The distance placeholder *)

(** [num / den] rounded to the nearest integer, ties to the even one
    ([den] positive). *)
Definition round_half_even (num den : Z) : Z :=
  let q := num / den in
  match 2 * (num mod den) ?= den with
  | Lt => q
  | Gt => q + 1
  | Eq => if Z.even q then q else q + 1
  end.

(** The magnitude [m * 2^e] in tenths, correctly rounded. *)
Definition tenths (m : N) (e : Z) : Z :=
  if 0 <=? e then 10 * (Z.of_N m * 2 ^ e)
  else round_half_even (10 * Z.of_N m) (2 ^ (- e)).

(** The format spec [.1f]: fixed point with one digit after the point. *)
Definition format_1f (f : pyfloat) : string :=
  match f with
  | FNan => "nan"
  | FInf neg => (if neg then "-" else "") +:+ "inf"
  | FFinite neg m e =>
      let t := tenths m e in
      (if neg then "-" else "") +:+ pretty (t / 10) +:+ "." +:+ pretty (t mod 10)
  end.

(** *** Float arithmetic *)

(** The binary64 number nearest to [m * 2^e], for [m] not negative, ties
    to even: at most 53 significant bits, no exponent under -1074, and
    infinity from [2^1024] on. *)
Definition round_binary64 (neg : bool) (m e : Z) : pyfloat :=
  let shift := Z.max (Z.log2 m + 1 - 53) (- 1074 - e) in
  let '(m', e') :=
    if 0 <? shift then (round_half_even m (2 ^ shift), e + shift) else (m, e) in
  if (0 <? m') && (1024 <=? Z.log2 m' + e') then FInf neg
  else FFinite neg (Z.to_N m') e'.

Definition float_neg (x : pyfloat) : pyfloat :=
  match x with
  | FNan => FNan
  | FInf neg => FInf (negb neg)
  | FFinite neg m e => FFinite (negb neg) m e
  end.

Definition signed (neg : bool) (m : N) : Z :=
  if neg then - Z.of_N m else Z.of_N m.

(** [x + y]. *)
Definition float_add (x y : pyfloat) : pyfloat :=
  match x, y with
  | FNan, _ | _, FNan => FNan
  | FInf s1, FInf s2 => if Bool.eqb s1 s2 then FInf s1 else FNan
  | FInf s, FFinite _ _ _ | FFinite _ _ _, FInf s => FInf s
  | FFinite s1 m1 e1, FFinite s2 m2 e2 =>
      let e := Z.min e1 e2 in
      let z := signed s1 m1 * 2 ^ (e1 - e) + signed s2 m2 * 2 ^ (e2 - e) in
      round_binary64 (if z =? 0 then s1 && s2 else z <? 0) (Z.abs z) e
  end.

(** [x - y]. *)
Definition float_sub (x y : pyfloat) : pyfloat := float_add x (float_neg y).

(** [x * y]. *)
Definition float_mul (x y : pyfloat) : pyfloat :=
  match x, y with
  | FNan, _ | _, FNan => FNan
  | FInf s1, FInf s2 => FInf (xorb s1 s2)
  | FInf s1, FFinite s2 m _ | FFinite s2 m _, FInf s1 =>
      if (m =? 0)%N then FNan else FInf (xorb s1 s2)
  | FFinite s1 m1 e1, FFinite s2 m2 e2 =>
      round_binary64 (xorb s1 s2) (Z.of_N m1 * Z.of_N m2) (e1 + e2)
  end.

(** *** The random generator *)

(** [random.random()] returns a multiple [k / 2^53] of [2^-53] below 1;
    [k] is what the generator draws. *)
Definition random_random (k : N) : pyfloat := FFinite false k (-53).

(** [random.uniform(a, b)], which is [a + (b - a) * self.random()]. *)
Definition random_uniform (a b : pyfloat) (k : N) : pyfloat :=
  float_add a (float_mul (float_sub b a) (random_random k)).

(** The literals [0.5] and [10.0]. *)
Definition half : pyfloat := FFinite false 1 (-1).
Definition ten : pyfloat := FFinite false 5 1.

(** [calculate_distance_to_receiver(donor_address)]; [rnd] is the draw the
    generator makes in this call. *)
Definition calculate_distance_to_receiver (donor_address : pyval) (rnd : N) : string :=
  format_1f (random_uniform half ten rnd) +:+ " mi".

(** The exact value of a finite float. *)
Definition float_value (neg : bool) (m : N) (e : Z) : Q :=
  let mag := if 0 <=? e then inject_Z (Z.of_N m * 2 ^ e)
             else Qmake (Z.of_N m) (Z.to_pos (2 ^ (- e))) in
  if neg then Qopp mag else mag.

(** [lo <= x < hi] for a float [x]; no special value lies in an interval. *)
Definition float_in (lo hi : Q) (x : pyfloat) : Prop :=
  match x with
  | FFinite neg m e => Qle lo (float_value neg m e) ∧ Qlt (float_value neg m e) hi
  | _ => False
  end.

(** *** Regular expressions, matched by derivatives *)

Inductive regex :=
  | Void
  | Eps
  | Chr (c : ascii)
  | Range (lo hi : ascii)
  | Cat (r1 r2 : regex)
  | Alt (r1 r2 : regex)
  | Star (r : regex).

Fixpoint nullable (r : regex) : bool :=
  match r with
  | Void | Chr _ | Range _ _ => false
  | Eps | Star _ => true
  | Cat r1 r2 => nullable r1 && nullable r2
  | Alt r1 r2 => nullable r1 || nullable r2
  end.

Definition in_range (lo hi c : ascii) : bool :=
  (nat_of_ascii lo <=? nat_of_ascii c)%nat && (nat_of_ascii c <=? nat_of_ascii hi)%nat.

Fixpoint deriv (c : ascii) (r : regex) : regex :=
  match r with
  | Void | Eps => Void
  | Chr c' => if Ascii.eqb c c' then Eps else Void
  | Range lo hi => if in_range lo hi c then Eps else Void
  | Cat r1 r2 =>
      if nullable r1 then Alt (Cat (deriv c r1) r2) (deriv c r2)
      else Cat (deriv c r1) r2
  | Alt r1 r2 => Alt (deriv c r1) (deriv c r2)
  | Star r1 => Cat (deriv c r1) (Star r1)
  end.

(** The whole of [s] matches [r]. *)
Fixpoint fullmatch (r : regex) (s : string) : bool :=
  match s with
  | EmptyString => nullable r
  | String c rest => fullmatch (deriv c r) rest
  end.

Fixpoint literal (s : string) : regex :=
  match s with
  | EmptyString => Eps
  | String c rest => Cat (Chr c) (literal rest)
  end.

Definition digit : regex := Range "0" "9".

(** [^[0-9]+\.[0-9] mi$] *)
Definition distance_pattern : regex :=
  Cat (Cat digit (Star digit)) (Cat (Chr ".") (Cat digit (literal " mi"))).

(** *** The number a distance string denotes *)

Definition digit_value (c : ascii) : option Z :=
  if in_range "0" "9" c then Some (Z.of_nat (nat_of_ascii c) - 48) else None.

Fixpoint read_digits (acc : Z) (s : string) : Z * string :=
  match s with
  | EmptyString => (acc, s)
  | String c rest =>
      match digit_value c with
      | Some d => read_digits (10 * acc + d) rest
      | None => (acc, s)
      end
  end.

(** The decimal number in front of the unit, for a string of the shape
    [distance_pattern] describes. *)
Definition distance_value (s : string) : option Q :=
  if fullmatch distance_pattern s then
    let '(whole, rest) := read_digits 0 s in
    match rest with
    | String _ (String c _) =>
        (λ d, Qmake (10 * whole + d) 10) <$> digit_value c
    | _ => None
    end
  else None.

(** ** The [donations] table *)

(** A row of the table. [name] is declared [nullable=False]; every other
    VARCHAR column may hold NULL. *)
Record Donation := {
  id : Z;
  name : string;
  servings : option string;
  readyTime : option string;
  foodType : option string;
  status : option string;
  icon : option string;
  donor : option string;
  donorAddress : option string;
  donor_phone : option string;
  receiverAddress : option string;
  receiverPhone : option string;
  distance : option string;
}.

Definition with_status (s : string) (d : Donation) : Donation :=
  {| id := id d; name := name d; servings := servings d;
     readyTime := readyTime d; foodType := foodType d; status := Some s;
     icon := icon d; donor := donor d; donorAddress := donorAddress d;
     donor_phone := donor_phone d; receiverAddress := receiverAddress d;
     receiverPhone := receiverPhone d; distance := distance d |}.

Definition column (v : option string) : pyval :=
  match v with
  | Some s => PyStr s
  | None => PyNone
  end.

(** [Donation.to_dict] on a loaded row. *)
Definition to_dict (self : Donation) : pyval :=
  PyDict [
    ("id", PyInt (id self));
    ("name", PyStr (name self));
    ("donor", column (donor self));
    ("donor_phone", column (donor_phone self));
    ("donorAddress", column (donorAddress self));
    ("receiverAddress", column (receiverAddress self));
    ("receiverPhone", column (receiverPhone self));
    ("servings", column (servings self));
    ("distance", column (distance self));
    ("readyTime", column (readyTime self));
    ("status", column (status self));
    ("icon", column (icon self));
    ("foodType", column (foodType self))
  ].

(** The keyword arguments of the [Donation(...)] call in [add_donation]:
    the attributes of an instance that has no row yet. *)
Module Kw.
Record t := {
  donor : pyval;
  name : pyval;
  donor_phone : pyval;
  donorAddress : pyval;
  receiverAddress : pyval;
  receiverPhone : pyval;
  foodType : pyval;
  servings : pyval;
  distance : pyval;
  readyTime : pyval;
}.
End Kw.

(** The primary key SQLite gives a row inserted without one: 1 in an empty
    table, else one more than the largest key in use. *)
Definition largest_key (tbl : gmap Z Donation) : option Z :=
  map_fold (λ k _ acc, Some (from_option (Z.max k) k acc)) None tbl.

Definition fresh_key (tbl : gmap Z Donation) : Z :=
  from_option (λ k, k + 1) 1 (largest_key tbl).

Section Insert.
Context {rt : Runtime}.

(** A parameter bound to a VARCHAR column. *)
Definition bind_text (v : pyval) : option (option string) :=
  match v with
  | PyNone => Some None
  | PyStr s => Some (Some s)
  | _ => bind_other v
  end.

(** The row an INSERT of the instance writes under key [pk]: [status] and
    [icon] are not among the keyword arguments and take their column
    defaults. The driver may refuse a parameter, and the table refuses a
    NULL [name]. *)
Definition insert_row (pk : Z) (kw : Kw.t) : result Donation :=
  match
    n ← bind_text (Kw.name kw);
    sv ← bind_text (Kw.servings kw);
    rd ← bind_text (Kw.readyTime kw);
    ft ← bind_text (Kw.foodType kw);
    dn ← bind_text (Kw.donor kw);
    da ← bind_text (Kw.donorAddress kw);
    dp ← bind_text (Kw.donor_phone kw);
    ra ← bind_text (Kw.receiverAddress kw);
    rp ← bind_text (Kw.receiverPhone kw);
    di ← bind_text (Kw.distance kw);
    Some (n, {| id := pk; name := default "" n; servings := sv;
                readyTime := rd; foodType := ft; status := Some "pending";
                icon := Some "🎁"; donor := dn; donorAddress := da;
                donor_phone := dp; receiverAddress := ra;
                receiverPhone := rp; distance := di |})
  with
  | None => Raise InterfaceError
  | Some (None, _) => Raise IntegrityError
  | Some (Some _, row) => Return row
  end.
End Insert.

(** ** The session: a unit of work over the table *)

(** The SELECT behind a query, or behind the reload of an expired
    instance, is taken to succeed; what the storage engine may refuse is
    the transaction of a commit. *)

(** The states of a mapped instance. A persistent instance remembers the
    row it was loaded with ([None] once expired) and the value assigned to
    its [status] attribute since, if any. *)
Inductive instance :=
  | Transient (kw : Kw.t)
  | Pending (kw : Kw.t)
  | Persistent (pk : Z) (loaded : option Donation) (assigned : option string).

(** What a request works on: the committed table, shared by all requests,
    and the instances of its own session, referred to by position. *)
Record world := World {
  table : gmap Z Donation;
  objects : list instance;
}.

Definition M (A : Type) : Type := world → result A * world.

#[export] Instance M_ret : MRet M := λ A a w, (Return a, w).
#[export] Instance M_bind : MBind M := λ A B f m w,
  match m w with
  | (Return a, w') => f a w'
  | (Raise e, w') => (Raise e, w')
  end.

Definition lift {A} (r : result A) : M A := λ w, (r, w).

(** [try: body / except Exception as e: handler]. *)
Definition try_except {A} (body : M A) (handler : exn → M A) : M A := λ w,
  match body w with
  | (Return a, w') => (Return a, w')
  | (Raise e, w') => handler e w'
  end.

(** The constructor call [Donation(...)]: a new transient instance. *)
Definition Donation_new (kw : Kw.t) : M nat := λ w,
  (Return (length (objects w)),
   World (table w) (objects w ++ [Transient kw])).

(** [db.session.add(obj)]. *)
Definition session_add (obj : nat) : M () := λ w,
  match objects w !! obj with
  | Some (Transient kw) =>
      (Return (), World (table w) (<[obj := Pending kw]> (objects w)))
  | Some _ => (Return (), w)
  | None => (Raise InvalidRequestError, w)
  end.

(** The integers the driver can bind to a statement: those of 64 bits. *)
Definition sqlite_int (n : Z) : bool := (- 2 ^ 63 <=? n) && (n <? 2 ^ 63).

(** [Donation.query.get(pk)]; the handler calls it on a session that holds
    no instance yet. The keys of the table are 64-bit rowids; a [pk]
    outside that range is in no table, and the driver raises
    [OverflowError] when it is to bind it to the SELECT. *)
Definition query_get (pk : Z) : M (option nat) := λ w,
  match table w !! pk with
  | Some row =>
      (Return (Some (length (objects w))),
       World (table w) (objects w ++ [Persistent pk (Some row) None]))
  | None =>
      if sqlite_int pk then (Return None, w) else (Raise OverflowError, w)
  end.

(** [Donation.query.all()]. *)
Definition query_all : M (list Donation) := λ w,
  (Return (snd <$> map_to_list (table w)), w).

(** The row behind a persistent instance, read again when expired. *)
Definition current_row (w : world) (pk : Z) (loaded : option Donation)
    : option Donation :=
  match loaded with
  | Some row => Some row
  | None => table w !! pk
  end.

(** [obj.status]. *)
Definition get_status (obj : nat) : M (option string) := λ w,
  match objects w !! obj with
  | Some (Persistent pk loaded assigned) =>
      match assigned with
      | Some s => (Return (Some s), w)
      | None =>
          match current_row w pk loaded with
          | Some row => (Return (status row), w)
          | None => (Raise InvalidRequestError, w)
          end
      end
  | Some _ => (Return None, w)
  | None => (Raise InvalidRequestError, w)
  end.

(** [obj.status = s]. *)
Definition set_status (obj : nat) (s : string) : M () := λ w,
  match objects w !! obj with
  | Some (Persistent pk loaded _) =>
      (Return (),
       World (table w) (<[obj := Persistent pk loaded (Some s)]> (objects w)))
  | _ => (Raise InvalidRequestError, w)
  end.

(** [obj.to_dict()] on a persistent instance. *)
Definition instance_to_dict (obj : nat) : M pyval := λ w,
  match objects w !! obj with
  | Some (Persistent pk loaded assigned) =>
      match current_row w pk loaded with
      | Some row =>
          (Return (to_dict (from_option (λ s, with_status s row) row assigned)), w)
      | None => (Raise InvalidRequestError, w)
      end
  | _ => (Raise InvalidRequestError, w)
  end.

Section Flush.
Context {rt : Runtime}.

(** The statement one instance contributes to a flush: INSERT for a
    pending instance, [UPDATE donations SET status=? WHERE id=?] for a
    persistent one whose status was assigned. *)
Definition flush_instance (tbl : gmap Z Donation) (o : instance)
    : result (gmap Z Donation * instance) :=
  match o with
  | Transient kw => Return (tbl, o)
  | Pending kw =>
      let pk := fresh_key tbl in
      match insert_row pk kw with
      | Return row => Return (<[pk := row]> tbl, Persistent pk (Some row) None)
      | Raise e => Raise e
      end
  | Persistent pk loaded None => Return (tbl, o)
  | Persistent pk loaded (Some s) =>
      match tbl !! pk with
      | Some row =>
          Return (<[pk := with_status s row]> tbl, Persistent pk loaded None)
      | None => Raise StaleDataError
      end
  end.

Fixpoint flush (tbl : gmap Z Donation) (os : list instance)
    : result (gmap Z Donation * list instance) :=
  match os with
  | [] => Return (tbl, [])
  | o :: rest =>
      match flush_instance tbl o with
      | Return (tbl', o') =>
          match flush tbl' rest with
          | Return (tbl'', rest') => Return (tbl'', o' :: rest')
          | Raise e => Raise e
          end
      | Raise e => Raise e
      end
  end.

(** After a commit every instance is expired. *)
Definition expire (o : instance) : instance :=
  match o with
  | Persistent pk _ _ => Persistent pk None None
  | _ => o
  end.

(** [db.session.commit()]: the flushed statements reach the table
    together or not at all. [io] tells whether the storage engine carries
    the transaction out (it may not: a locked or unwritable file). *)
Definition session_commit (io : bool) : M () := λ w,
  match flush (table w) (objects w) with
  | Return (tbl, os) =>
      if io then (Return (), World tbl (expire <$> os))
      else (Raise OperationalError, w)
  | Raise e => (Raise e, w)
  end.

(** [db.session.rollback()]: pending instances leave the session,
    persistent ones forget what was assigned and are expired. *)
Definition session_rollback : M () := λ w,
  (Return (),
   World (table w)
     ((λ o, match o with Pending kw => Transient kw | _ => expire o end)
        <$> objects w)).
End Flush.

(** ** The route handlers *)

(** The [print] calls of the handlers write to the console only and are
    left out. *)

(** A view's return value: the JSON body and the HTTP status. *)
Record response := Response {
  body : pyval;
  status_code : Z;
}.

(** What a POST request brings for [request.json] to read: no JSON at all
    (no body, or a content type other than JSON), a body sent as JSON that
    does not parse, or a JSON document. *)
Inductive json_body :=
  | NotJson
  | Unparsable
  | Json (v : pyval).

Coercion Json : pyval >-> json_body.

(** [request.json]: the parsed document, [None] for the document [null];
    it raises 415 when the request carries no JSON and 400 when the body
    does not parse. *)
Definition request_json (b : json_body) : result pyval :=
  match b with
  | NotJson => Raise UnsupportedMediaType
  | Unparsable => Raise BadRequest
  | Json v => Return v
  end.

Section Handlers.
Context {rt : Runtime}.

(** [GET /api/donations]. *)
Definition get_donations : M response :=
  donations ← query_all;
  mret (Response (PyList (to_dict <$> donations)) 200).

(** The guard [not new_donation_data or 'quantity' not in new_donation_data]. *)
Definition missing_required_data (new_donation_data : pyval) : result bool :=
  if negb (truthy new_donation_data) then Return true
  else match py_in "quantity" new_donation_data with
       | Return b => Return (negb b)
       | Raise e => Raise e
       end.

(** The keyword arguments [add_donation] passes to [Donation(...)], in
    the order Python evaluates them. *)
Definition new_donation_kw (new_donation_data : pyval) (calculated_distance : string)
    : result Kw.t :=
  match py_get new_donation_data "donorname" (PyStr "Web Form User"),
        py_get new_donation_data "itemname" (PyStr "New Food Donation"),
        py_get new_donation_data "donorPhone" PyNone,
        py_get new_donation_data "donorAddress" PyNone,
        py_get new_donation_data "receiverAddress" PyNone,
        py_get new_donation_data "receiverPhone" PyNone,
        py_get new_donation_data "foodType" PyNone,
        py_get new_donation_data "quantity" (PyInt 0),
        py_get new_donation_data "pickupTime" (PyStr "ASAP")
  with
  | Return dn, Return nm, Return dp, Return da, Return ra, Return rp,
    Return ft, Return quantity, Return rd =>
      Return {| Kw.donor := dn; Kw.name := nm; Kw.donor_phone := dp;
                Kw.donorAddress := da; Kw.receiverAddress := ra;
                Kw.receiverPhone := rp; Kw.foodType := ft;
                Kw.servings := PyStr (py_str quantity +:+ " Servings");
                Kw.distance := PyStr calculated_distance;
                Kw.readyTime := rd |}
  | _, _, _, _, _, _, _, _, _ => Raise AttributeError
  end.

(** [POST /api/donations]. [request] is what the request brings as its
    body, [rnd] the draw of the random generator and [io] the fate of the
    commit. *)
Definition add_donation (request : json_body) (rnd : N) (io : bool)
    : M response :=
  new_donation_data ← lift (request_json request);
  missing ← lift (missing_required_data new_donation_data);
  if (missing : bool) then
    mret (Response (PyDict [("error", PyStr "Missing required data")]) 400)
  else
    donor_address ← lift (py_get new_donation_data "donorAddress" (PyStr ""));
    let calculated_distance :=
      calculate_distance_to_receiver donor_address rnd in
    kw ← lift (new_donation_kw new_donation_data calculated_distance);
    new_donation ← Donation_new kw;
    try_except
      (session_add new_donation;;
       session_commit io;;
       data ← instance_to_dict new_donation;
       mret (Response
               (PyDict [("message", PyStr "Donation successfully recorded");
                        ("data", data)])
               201))
      (λ e,
       session_rollback;;
       mret (Response
               (PyDict [("error", PyStr "Failed to save donation to database")])
               500)).

(** The part of [claim_donation] that follows the lookup. *)
Definition claim_loaded (donation_id : Z) (io : bool) (donation : option nat)
    : M response :=
  match donation with
  | None => mret (Response (PyDict [("error", PyStr "Donation not found")]) 404)
  | Some d =>
      st ← get_status d;
      if decide (st = Some "pending") then
        set_status d "claimed";;
        try_except
          (session_commit io;;
           mret (Response
                   (PyDict [("message",
                             PyStr ("Donation " +:+ pretty donation_id
                                    +:+ " claimed successfully"))])
                   200))
          (λ e,
           session_rollback;;
           mret (Response
                   (PyDict [("error", PyStr "Failed to update donation status")])
                   500))
      else
        mret (Response
                (PyDict [("message",
                          PyStr ("Donation " +:+ pretty donation_id
                                 +:+ " is already " +:+ column_str st))])
                400)
  end.

(** [PATCH /api/donations/<int:donation_id>/claim]. *)
Definition claim_donation (donation_id : Z) (io : bool) : M response :=
  donation ← query_get donation_id;
  claim_loaded donation_id io donation.
End Handlers.

(** ** Requests *)

(** The status of an HTTP exception. *)
Definition http_code (e : exn) : option Z :=
  match e with
  | UnsupportedMediaType => Some 415
  | BadRequest => Some 400
  | _ => None
  end.

(** What the client gets: the view's response, the 500 page Flask sends
    for an exception no handler caught, or the error page of an HTTP
    exception raised in the view. *)
Inductive outcome :=
  | Sent (r : response)
  | ServerError (e : exn)
  | Aborted (code : Z).

(** What Flask makes of an exception raised in a view. *)
Definition error_page (e : exn) : outcome :=
  match http_code e with
  | Some code => Aborted code
  | None => ServerError e
  end.

Definition outcome_code (o : outcome) : Z :=
  match o with
  | Sent r => status_code r
  | ServerError _ => 500
  | Aborted code => code
  end.

(** One request from start to end: a session of its own, removed with
    whatever it did not commit when the request is over. *)
Definition serve (view : M response) (tbl : gmap Z Donation)
    : outcome * gmap Z Donation :=
  match view (World tbl []) with
  | (Return r, w) => (Sent r, table w)
  | (Raise e, w) => (error_page e, table w)
  end.

(** The operations the API exposes. *)
Inductive request :=
  | List_
  | Create (request : json_body) (rnd : N) (io : bool)
  | Claim (donation_id : Z) (io : bool).

Definition handle {rt : Runtime} (rq : request) : gmap Z Donation → outcome * gmap Z Donation :=
  match rq with
  | List_ => serve get_donations
  | Create data rnd io => serve (add_donation data rnd io)
  | Claim donation_id io => serve (claim_donation donation_id io)
  end.

(** The table after a sequence of requests, each served to its end before
    the next starts. *)
Fixpoint run {rt : Runtime} (rqs : list request) (tbl : gmap Z Donation)
    : list outcome * gmap Z Donation :=
  match rqs with
  | [] => ([], tbl)
  | rq :: rest =>
      let '(o, tbl') := handle rq tbl in
      let '(os, tbl'') := run rest tbl' in
      (o :: os, tbl'')
  end.

(** A runtime to evaluate examples with: plain quoting, no float
    rendering of its own, and a driver that takes integers only. *)
Definition example_runtime : Runtime := {|
  float_repr := format_1f;
  str_repr s := "'" +:+ s +:+ "'";
  bind_other v := match v with
                  | PyInt z => Some (Some (pretty z))
                  | PyBool b => Some (Some (if b then "1" else "0"))
                  | _ => None
                  end;
|}.

(** A session that holds nothing to write: no instance waits for its
    INSERT and no assigned status waits for its UPDATE. *)
Definition written_out (o : instance) : bool :=
  match o with
  | Pending _ => false
  | Persistent _ _ (Some _) => false
  | _ => true
  end.

Definition session_clean (os : list instance) : Prop := forallb written_out os = true.

(** ** Overlapping claim requests *)

(** [claim_donation] touches the table twice: the SELECT behind
    [Donation.query.get] and the transaction of [db.session.commit]. The
    server runs each request in a thread and a session of its own, so the
    steps of two requests may alternate. A request is before its lookup,
    between lookup and the rest, or answered. *)
Inductive thread :=
  | Waiting (donation_id : Z) (io : bool)
  | Loaded (donation_id : Z) (io : bool) (os : list instance) (donation : option nat)
  | Done (o : outcome).

Definition advance {rt : Runtime} (tbl : gmap Z Donation) (t : thread)
    : gmap Z Donation * thread :=
  match t with
  | Waiting donation_id io =>
      match query_get donation_id (World tbl []) with
      | (Return donation, w) => (table w, Loaded donation_id io (objects w) donation)
      | (Raise e, w) => (table w, Done (error_page e))
      end
  | Loaded donation_id io os donation =>
      match claim_loaded donation_id io donation (World tbl os) with
      | (Return r, w) => (table w, Done (Sent r))
      | (Raise e, w) => (table w, Done (error_page e))
      end
  | Done o => (tbl, t)
  end.

(** Thread [i] takes its next step. *)
Definition step {rt : Runtime} (i : nat) (st : gmap Z Donation * list thread)
    : gmap Z Donation * list thread :=
  match st.2 !! i with
  | Some t => let '(tbl, t') := advance st.1 t in (tbl, <[i := t']> st.2)
  | None => st
  end.

(** The threads run in the order the schedule names them. *)
Fixpoint interleave {rt : Runtime} (schedule : list nat) (st : gmap Z Donation * list thread)
    : gmap Z Donation * list thread :=
  match schedule with
  | [] => st
  | i :: rest => interleave rest (step i st)
  end.

Definition answered (code : Z) (t : thread) : bool :=
  match t with
  | Done o => outcome_code o =? code
  | _ => false
  end.

Definition finished (t : thread) : bool :=
  match t with
  | Done _ => true
  | _ => false
  end.

(** How many of the threads were answered with the given status. *)
Definition count_answered (code : Z) (ts : list thread) : nat :=
  length (filter (λ t, answered code t = true) ts).

(** How many of the outcomes are a 200. *)
Definition successes (os : list outcome) : nat :=
  length (filter (λ o, outcome_code o = 200) os).

(** *** What overlapping claims of one pending record keep true *)

Section OverlapInvariant.
Variables (tbl0 : gmap Z Donation) (donation_id : Z) (d : Donation).

(** A request that has not seen the claimed status: it did not look yet,
    or it loaded the row while still pending. *)
Definition early (t : thread) : Prop :=
  t = Waiting donation_id true
  ∨ t = Loaded donation_id true [Persistent donation_id (Some d) None] (Some 0%nat).

(** A request that loaded the claimed row, or was answered 200 or 400. *)
Definition late (t : thread) : Prop :=
  t = Loaded donation_id true
        [Persistent donation_id (Some (with_status "claimed" d)) None] (Some 0%nat)
  ∨ ∃ o, t = Done o ∧ (outcome_code o = 200 ∨ outcome_code o = 400).

(** Either the row is as it was and every request is early, or the row is
    claimed and some request was answered 200. *)
Definition overlap_inv (st : gmap Z Donation * list thread) : Prop :=
  (st.1 = tbl0 ∧ ∀ j t, st.2 !! j = Some t → early t)
  ∨ (st.1 = <[donation_id := with_status "claimed" d]> tbl0
     ∧ (∀ j t, st.2 !! j = Some t → early t ∨ late t)
     ∧ ∃ j t, st.2 !! j = Some t ∧ answered 200 t = true).
End OverlapInvariant.

(** The two statuses a record gets through the API. *)
Definition lifecycle_status (d : Donation) : Prop :=
  status d = Some "pending" ∨ status d = Some "claimed".

(** A value bound to a VARCHAR column as it is: a str, or [None]. *)
Definition plain (v : pyval) : Prop := v = PyNone ∨ ∃ s, v = PyStr s.

(** ** Sample data *)

(** The row [add_donation] stores for the payload [{"quantity": 20}] in an
    empty table when the distance drawn is 5.25. *)
Definition sample_row : Donation := {|
  id := 1; name := "New Food Donation"; servings := Some "20 Servings";
  readyTime := Some "ASAP"; foodType := None; status := Some "pending";
  icon := Some "🎁"; donor := Some "Web Form User"; donorAddress := None;
  donor_phone := None; receiverAddress := None; receiverPhone := None;
  distance := Some "5.2 mi";
|}.

Definition sample_table : gmap Z Donation := {[ 1 := sample_row ]}.

(** A draw, [random.random()] being 0.5 and the distance 5.25, and two
    payloads that bind nothing but the quantity. *)
Definition sample_draw : N := 2 ^ 52.

Definition sample_payload : list (string * pyval) := [("quantity", PyInt 20)].

Definition null_payload : list (string * pyval) := [("quantity", PyNone)].

(** The sample payload created in an empty table, and a table with a
    second, claimed record. *)
Definition sample_created : outcome * gmap Z Donation :=
  serve (add_donation (rt := example_runtime) (PyDict sample_payload) sample_draw true) ∅.

Definition sample_full_payload : list (string * pyval) :=
  [("quantity", PyInt 12); ("itemname", PyStr "Rice"); ("donorname", PyStr "Asha");
   ("donorPhone", PyStr "555-0101"); ("pickupTime", PyNone);
   ("status", PyStr "claimed"); ("id", PyInt 99)].

Definition sample_requests : list request :=
  [Create (PyDict sample_payload) sample_draw true;
   Create (PyDict sample_full_payload) 7 true;
   Claim 2 true; List_; Create (PyList []) 0 true; Claim 5 true].

(** ** Vocabulary for the properties of whole runs *)

(** How many of the outcomes are a 201. *)
Definition created (os : list outcome) : nat :=
  length (filter (λ o, outcome_code o = 201) os).

(** The keys [add_donation] reads from the payload. *)
Definition read_keys : list string :=
  ["quantity"; "donorAddress"; "donorname"; "itemname"; "donorPhone";
   "receiverAddress"; "receiverPhone"; "foodType"; "pickupTime"].

(** The keys of a dict, in order. *)
Definition dict_keys (v : pyval) : list string :=
  match v with
  | PyDict kv => fst <$> kv
  | _ => []
  end.

(** A request whose draw is one the generator can make. *)
Definition draw_in_range (rq : request) : Prop :=
  match rq with
  | Create _ rnd _ => (rnd < 2 ^ 53)%N
  | _ => True
  end.

(** A record whose distance is a string of the pattern, showing a number
    from 0.5 to 10.0. *)
Definition distance_well_formed (d : Donation) : Prop :=
  ∃ s v, distance d = Some s
         ∧ fullmatch distance_pattern s = true
         ∧ distance_value s = Some v ∧ Qle (1#2) v ∧ Qle v 10.

(** * Properties *)

(** ** The handlers, evaluated *)

Ltac run_view :=
  unfold serve, claim_donation, claim_loaded, add_donation, get_donations,
    query_get, query_all, get_status, set_status, session_commit,
    session_rollback, session_add, Donation_new, instance_to_dict,
    try_except, lift, current_row, mbind, M_bind, mret, M_ret; simpl.

(** On a table whose keys are 64-bit integers, as the keys of every table
    of the database are, the lookup is the one that binds the key before
    it looks. *)
Lemma query_get_binds_first pk w :
  (∀ k, is_Some (table w !! k) → sqlite_int k = true) →
  query_get pk w =
    if sqlite_int pk then
      match table w !! pk with
      | Some row =>
          (Return (Some (length (objects w))),
           World (table w) (objects w ++ [Persistent pk (Some row) None]))
      | None => (Return None, w)
      end
    else (Raise OverflowError, w).
Proof.
  intros Hkeys. unfold query_get.
  destruct (table w !! pk) as [row|] eqn:Hrow; [|done].
  by rewrite Hkeys by (by eexists).
Qed.

Section Claim.
Context {rt : Runtime}.

Lemma claim_not_found tbl donation_id io :
  tbl !! donation_id = None → sqlite_int donation_id = true →
  claim_donation donation_id io (World tbl []) =
    (Return (Response (PyDict [("error", PyStr "Donation not found")]) 404),
     World tbl []).
Proof. intros Hnone Hint. run_view. by rewrite Hnone, Hint. Qed.

Lemma claim_overflow tbl donation_id io :
  tbl !! donation_id = None → sqlite_int donation_id = false →
  claim_donation donation_id io (World tbl []) =
    (Raise OverflowError, World tbl []).
Proof. intros Hnone Hint. run_view. by rewrite Hnone, Hint. Qed.

Lemma claim_pending_committed tbl donation_id d :
  tbl !! donation_id = Some d → status d = Some "pending" →
  claim_donation donation_id true (World tbl []) =
    (Return (Response
               (PyDict [("message",
                         PyStr ("Donation " +:+ pretty donation_id
                                +:+ " claimed successfully"))]) 200),
     World (<[donation_id := with_status "claimed" d]> tbl)
           [Persistent donation_id None None]).
Proof.
  intros Hd Hst. run_view. rewrite Hd. simpl. rewrite Hst. simpl.
  by rewrite Hd.
Qed.

Lemma claim_pending_refused tbl donation_id d :
  tbl !! donation_id = Some d → status d = Some "pending" →
  claim_donation donation_id false (World tbl []) =
    (Return (Response
               (PyDict [("error", PyStr "Failed to update donation status")])
               500),
     World tbl [Persistent donation_id None None]).
Proof.
  intros Hd Hst. run_view. rewrite Hd. simpl. rewrite Hst. simpl.
  by rewrite Hd.
Qed.

Lemma claim_not_pending tbl donation_id io d :
  tbl !! donation_id = Some d → status d ≠ Some "pending" →
  claim_donation donation_id io (World tbl []) =
    (Return (Response
               (PyDict [("message",
                         PyStr ("Donation " +:+ pretty donation_id
                                +:+ " is already " +:+ column_str (status d)))])
               400),
     World tbl [Persistent donation_id (Some d) None]).
Proof.
  intros Hd Hst. run_view. rewrite Hd. simpl.
  by rewrite decide_False.
Qed.
End Claim.

Section ClaimOutcomes.
Context {rt : Runtime}.

(** C5. A claim on an identifier that no stored record has leaves the
    table, hence every record and its status, as it was. It answers 404
    with an error body when the identifier is a 64-bit integer. For any
    other identifier, such as 2^63, the lookup raises [OverflowError],
    which the view does not catch: the answer is the 500 page and not
    404. *)
Theorem claim_unknown_id (tbl : gmap Z Donation) donation_id io :
  tbl !! donation_id = None →
  serve (claim_donation donation_id io) tbl =
    (if sqlite_int donation_id
     then Sent (Response (PyDict [("error", PyStr "Donation not found")]) 404)
     else ServerError OverflowError,
     tbl).
Proof.
  intros Hnone. unfold serve. destruct (sqlite_int donation_id) eqn:Hint.
  - by rewrite claim_not_found.
  - by rewrite claim_overflow.
Qed.

(** C1. For a stored record: when its status is 'pending', a claim whose
    commit goes through stores 'claimed' and answers 200 with the
    confirmation, and any further claim on that id answers 400 and
    changes nothing; when its status is anything else, a claim changes
    nothing and answers 400 with a message naming the current status. *)
Theorem claim_guarded_transition (tbl : gmap Z Donation) donation_id d :
  tbl !! donation_id = Some d →
  (status d = Some "pending" →
     let tbl' := <[donation_id := with_status "claimed" d]> tbl in
     serve (claim_donation donation_id true) tbl =
       (Sent (Response
                (PyDict [("message",
                          PyStr ("Donation " +:+ pretty donation_id
                                 +:+ " claimed successfully"))]) 200),
        tbl')
     ∧ ∀ io,
         serve (claim_donation donation_id io) tbl' =
           (Sent (Response
                    (PyDict [("message",
                              PyStr ("Donation " +:+ pretty donation_id
                                     +:+ " is already claimed"))]) 400),
            tbl'))
  ∧ (status d ≠ Some "pending" →
     ∀ io,
       serve (claim_donation donation_id io) tbl =
         (Sent (Response
                  (PyDict [("message",
                            PyStr ("Donation " +:+ pretty donation_id
                                   +:+ " is already "
                                   +:+ column_str (status d)))]) 400),
          tbl)).
Proof.
  intros Hd. split.
  - intros Hst tbl'. split.
    + unfold serve. by rewrite (claim_pending_committed _ _ d).
    + intros io. unfold serve.
      by rewrite (claim_not_pending tbl' _ io (with_status "claimed" d))
        by (by subst tbl'; rewrite ?lookup_insert_eq).
  - intros Hst io. unfold serve. by rewrite (claim_not_pending _ _ io d).
Qed.
End ClaimOutcomes.

Lemma claim_unknown_id_witness :
  serve (claim_donation (rt := example_runtime) 7 true) sample_table =
    (Sent (Response (PyDict [("error", PyStr "Donation not found")]) 404),
     sample_table)
  ∧ serve (claim_donation (rt := example_runtime) (2 ^ 63) true) sample_table =
      (ServerError OverflowError, sample_table).
Proof.
  split.
  - apply (claim_unknown_id (rt := example_runtime) sample_table 7 true).
    reflexivity.
  - apply (claim_unknown_id (rt := example_runtime) sample_table (2 ^ 63) true).
    reflexivity.
Defined.

Lemma claim_guarded_transition_witness :
  let claimed := <[1 := with_status "claimed" sample_row]> sample_table in
  (serve (claim_donation (rt := example_runtime) 1 true) sample_table =
     (Sent (Response (PyDict [("message", PyStr "Donation 1 claimed successfully")])
              200),
      claimed)
   ∧ ∀ io,
       serve (claim_donation (rt := example_runtime) 1 io) claimed =
         (Sent (Response (PyDict [("message", PyStr "Donation 1 is already claimed")])
                  400),
          claimed))
  ∧ ∀ io,
      serve (claim_donation (rt := example_runtime) 1 io) claimed =
        (Sent (Response (PyDict [("message", PyStr "Donation 1 is already claimed")])
                 400),
         claimed).
Proof.
  intros claimed. split.
  - apply (proj1 (claim_guarded_transition (rt := example_runtime)
                    sample_table 1 sample_row eq_refl)).
    reflexivity.
  - apply (proj2 (claim_guarded_transition (rt := example_runtime)
                    claimed 1 (with_status "claimed" sample_row) eq_refl)).
    discriminate.
Defined.

Section Create.
Context {rt : Runtime}.

Lemma missing_required_data_dict kv :
  is_Some (dict_lookup "quantity" kv) →
  missing_required_data (PyDict kv) = Return false.
Proof.
  intros [q Hq]. unfold missing_required_data, py_in, dict_has.
  rewrite Hq. by destruct kv.
Qed.

Lemma missing_required_data_lacking kv :
  dict_lookup "quantity" kv = None →
  missing_required_data (PyDict kv) = Return true.
Proof.
  intros Hq. unfold missing_required_data, py_in, dict_has.
  rewrite Hq. by destruct kv.
Qed.

Lemma add_donation_rejected data rnd io tbl :
  missing_required_data data = Return true →
  add_donation data rnd io (World tbl []) =
    (Return (Response (PyDict [("error", PyStr "Missing required data")]) 400),
     World tbl []).
Proof. intros Hm. run_view. by rewrite Hm. Qed.

(** The keyword arguments for a dict payload. *)
Lemma new_donation_kw_dict kv dist :
  new_donation_kw (PyDict kv) dist =
    Return {| Kw.donor := default (PyStr "Web Form User") (dict_lookup "donorname" kv);
              Kw.name := default (PyStr "New Food Donation") (dict_lookup "itemname" kv);
              Kw.donor_phone := default PyNone (dict_lookup "donorPhone" kv);
              Kw.donorAddress := default PyNone (dict_lookup "donorAddress" kv);
              Kw.receiverAddress := default PyNone (dict_lookup "receiverAddress" kv);
              Kw.receiverPhone := default PyNone (dict_lookup "receiverPhone" kv);
              Kw.foodType := default PyNone (dict_lookup "foodType" kv);
              Kw.servings :=
                PyStr (py_str (default (PyInt 0) (dict_lookup "quantity" kv))
                       +:+ " Servings");
              Kw.distance := PyStr dist;
              Kw.readyTime := default (PyStr "ASAP") (dict_lookup "pickupTime" kv) |}.
Proof. reflexivity. Qed.

(** What [add_donation] does with a dict payload that has the key. *)
Lemma add_donation_dict kv rnd io tbl kw :
  is_Some (dict_lookup "quantity" kv) →
  new_donation_kw (PyDict kv)
    (calculate_distance_to_receiver
       (default (PyStr "") (dict_lookup "donorAddress" kv)) rnd) = Return kw →
  add_donation (PyDict kv) rnd io (World tbl []) =
    match insert_row (fresh_key tbl) kw with
    | Return row =>
        if io then
          (Return (Response
                     (PyDict [("message", PyStr "Donation successfully recorded");
                              ("data", to_dict row)]) 201),
           World (<[fresh_key tbl := row]> tbl)
                 [Persistent (fresh_key tbl) None None])
        else
          (Return (Response
                     (PyDict [("error", PyStr "Failed to save donation to database")])
                     500),
           World tbl [Transient kw])
    | Raise e =>
        (Return (Response
                   (PyDict [("error", PyStr "Failed to save donation to database")])
                   500),
         World tbl [Transient kw])
    end.
Proof.
  intros Hq Hkw. unfold add_donation, lift, mbind, M_bind.
  cbn [request_json]. rewrite (missing_required_data_dict kv Hq).
  cbn [py_get]. rewrite Hkw.
  run_view. destruct (insert_row (fresh_key tbl) kw) as [row|e]; simpl; [|done].
  destruct io; simpl; [|done].
  by rewrite lookup_insert_eq.
Qed.
End Create.

(** ** Keys *)

Lemma largest_key_bounds (tbl : gmap Z Donation) k :
  is_Some (tbl !! k) → ∃ m, largest_key tbl = Some m ∧ k ≤ m.
Proof.
  unfold largest_key.
  revert k. apply (map_fold_weak_ind
    (λ (r : option Z) (m : gmap Z Donation),
       ∀ k, is_Some (m !! k) → ∃ b, r = Some b ∧ k ≤ b)).
  - intros k [? Hk]. by rewrite lookup_empty in Hk.
  - intros i x m r _ IH k Hk.
    destruct (decide (i = k)) as [->|Hne].
    + destruct r as [b|]; simpl; eexists; split; try done; lia.
    + rewrite lookup_insert_ne in Hk by done.
      destruct (IH k Hk) as (b & -> & Hb). simpl.
      eexists; split; [done|lia].
Qed.

(** The key of an INSERT is not in use. *)
Lemma fresh_key_fresh (tbl : gmap Z Donation) : tbl !! fresh_key tbl = None.
Proof.
  destruct (tbl !! fresh_key tbl) eqn:Hk; [|done].
  destruct (largest_key_bounds tbl (fresh_key tbl)) as (m & Hm & Hle); [by eexists|].
  unfold fresh_key in Hle. rewrite Hm in Hle. simpl in Hle. lia.
Qed.

(** ** Inserted rows *)

Section Stored.
Context {rt : Runtime}.

Lemma insert_row_columns pk kw row :
  insert_row pk kw = Return row →
  id row = pk ∧ status row = Some "pending" ∧ icon row = Some "🎁"
  ∧ bind_text (Kw.name kw) = Some (Some (name row))
  ∧ bind_text (Kw.servings kw) = Some (servings row)
  ∧ bind_text (Kw.readyTime kw) = Some (readyTime row)
  ∧ bind_text (Kw.donor kw) = Some (donor row)
  ∧ bind_text (Kw.distance kw) = Some (distance row).
Proof.
  unfold insert_row.
  destruct (bind_text (Kw.name kw)) as [n|]; simpl; [|done].
  destruct (bind_text (Kw.servings kw)) as [sv|]; simpl; [|done].
  destruct (bind_text (Kw.readyTime kw)) as [rd|]; simpl; [|done].
  destruct (bind_text (Kw.foodType kw)) as [ft|]; simpl; [|done].
  destruct (bind_text (Kw.donor kw)) as [dn|]; simpl; [|done].
  destruct (bind_text (Kw.donorAddress kw)) as [da|]; simpl; [|done].
  destruct (bind_text (Kw.donor_phone kw)) as [dp|]; simpl; [|done].
  destruct (bind_text (Kw.receiverAddress kw)) as [ra|]; simpl; [|done].
  destruct (bind_text (Kw.receiverPhone kw)) as [rp|]; simpl; [|done].
  destruct (bind_text (Kw.distance kw)) as [di|]; simpl; [|done].
  destruct n as [n|]; [|done].
  intros [= <-]. simpl. by repeat split.
Qed.

Lemma bind_text_plain v : plain v → is_Some (bind_text v).
Proof. intros [->|[s ->]]; by eexists. Qed.

Lemma insert_row_plain pk kw :
  (∃ s, Kw.name kw = PyStr s) →
  plain (Kw.servings kw) → plain (Kw.readyTime kw) → plain (Kw.foodType kw) →
  plain (Kw.donor kw) → plain (Kw.donorAddress kw) → plain (Kw.donor_phone kw) →
  plain (Kw.receiverAddress kw) → plain (Kw.receiverPhone kw) →
  plain (Kw.distance kw) →
  ∃ row, insert_row pk kw = Return row.
Proof.
  intros [n Hn] Hsv Hrd Hft Hdn Hda Hdp Hra Hrp Hdi. unfold insert_row.
  rewrite Hn. simpl.
  destruct (bind_text_plain _ Hsv) as [? ->].
  destruct (bind_text_plain _ Hrd) as [? ->].
  destruct (bind_text_plain _ Hft) as [? ->].
  destruct (bind_text_plain _ Hdn) as [? ->].
  destruct (bind_text_plain _ Hda) as [? ->].
  destruct (bind_text_plain _ Hdp) as [? ->].
  destruct (bind_text_plain _ Hra) as [? ->].
  destruct (bind_text_plain _ Hrp) as [? ->].
  destruct (bind_text_plain _ Hdi) as [? ->].
  simpl. by eexists.
Qed.
End Stored.

Section CreateOutcomes.
Context {rt : Runtime}.

(** The columns of a stored record, as [add_donation] fills them from the
    payload [kv] and the draw [rnd]. *)
Lemma stored_columns kv q rnd pk kw row :
  dict_lookup "quantity" kv = Some q →
  new_donation_kw (PyDict kv)
    (calculate_distance_to_receiver
       (default (PyStr "") (dict_lookup "donorAddress" kv)) rnd) = Return kw →
  insert_row pk kw = Return row →
  servings row = Some (py_str q +:+ " Servings")
  ∧ status row = Some "pending"
  ∧ distance row = Some (calculate_distance_to_receiver PyNone rnd)
  ∧ (dict_lookup "donorname" kv = None → donor row = Some "Web Form User")
  ∧ (dict_lookup "itemname" kv = None → name row = "New Food Donation")
  ∧ (dict_lookup "pickupTime" kv = None → readyTime row = Some "ASAP").
Proof.
  intros Hq Hkw Hins.
  rewrite new_donation_kw_dict in Hkw. injection Hkw as <-.
  apply insert_row_columns in Hins
    as (_ & Hst & _ & Hname & Hserv & Hready & Hdonor & Hdist).
  simpl in *. rewrite Hq in Hserv. simpl in Hserv.
  repeat split.
  - congruence.
  - done.
  - unfold calculate_distance_to_receiver in *. congruence.
  - intros Hnone. rewrite Hnone in Hdonor. simpl in Hdonor. congruence.
  - intros Hnone. rewrite Hnone in Hname. simpl in Hname. congruence.
  - intros Hnone. rewrite Hnone in Hready. simpl in Hready. congruence.
Qed.

(** Whenever a create request on a dict payload is answered 201, one row
    went into the table under an unused key, and the response shows it. *)
Lemma add_donation_stored kv q rnd io tbl o tbl' :
  dict_lookup "quantity" kv = Some q →
  serve (add_donation (PyDict kv) rnd io) tbl = (o, tbl') →
  outcome_code o = 201 →
  ∃ row,
    o = Sent (Response
                (PyDict [("message", PyStr "Donation successfully recorded");
                         ("data", to_dict row)]) 201)
    ∧ tbl' = <[fresh_key tbl := row]> tbl
    ∧ tbl !! fresh_key tbl = None
    ∧ servings row = Some (py_str q +:+ " Servings")
    ∧ status row = Some "pending"
    ∧ distance row = Some (calculate_distance_to_receiver PyNone rnd)
    ∧ (dict_lookup "donorname" kv = None → donor row = Some "Web Form User")
    ∧ (dict_lookup "itemname" kv = None → name row = "New Food Donation")
    ∧ (dict_lookup "pickupTime" kv = None → readyTime row = Some "ASAP").
Proof.
  intros Hq Hserve Hcode. unfold serve in Hserve.
  rewrite (add_donation_dict kv rnd io tbl _ (mk_is_Some _ _ Hq)
             (new_donation_kw_dict kv _)) in Hserve.
  destruct (insert_row _ _) as [row|e] eqn:Hrow.
  - destruct io; injection Hserve as <- <-; [|done].
    exists row. split; [done|]. split; [done|]. split; [apply fresh_key_fresh|].
    by apply (stored_columns kv q rnd (fresh_key tbl) _ row Hq
                (new_donation_kw_dict kv _)).
  - by injection Hserve as <- <-.
Qed.

(** A dict payload whose values, the quantity apart, are strings or null
    with a non-null item name, is stored when the commit goes through. *)
Lemma add_donation_accepts kv q rnd tbl :
  dict_lookup "quantity" kv = Some q →
  (∀ k v, k ≠ "quantity" → dict_lookup k kv = Some v → plain v) →
  dict_lookup "itemname" kv ≠ Some PyNone →
  outcome_code (serve (add_donation (PyDict kv) rnd true) tbl).1 = 201.
Proof.
  intros Hq Hplain Hname. unfold serve.
  rewrite (add_donation_dict kv rnd true tbl _ (mk_is_Some _ _ Hq)
             (new_donation_kw_dict kv _)).
  assert (∀ k d, k ≠ "quantity" → plain d → plain (default d (dict_lookup k kv)))
    as Hdef.
  { intros k d Hk Hd. destruct (dict_lookup k kv) eqn:Hl; simpl; eauto. }
  edestruct (insert_row_plain (fresh_key tbl)) as [row ->]; [..|done]; simpl;
    try (apply Hdef; [done|]); try (by left); try (by right; eexists).
  destruct (dict_lookup "itemname" kv) as [v|] eqn:Hl; simpl; [|by eexists].
  destruct (Hplain "itemname" v) as [->|?]; done.
Qed.
End CreateOutcomes.

Section CreateClaims.
Context {rt : Runtime}.


(** X7. A payload that is no object and is not falsy never reaches the 400:
    a number or [True] fails the membership test, a list or str that
    holds 'quantity' has no [get]. Flask answers 500. *)
Lemma add_donation_not_an_object rnd io (tbl : gmap Z Donation) :
  (∀ z, z ≠ 0 →
        serve (add_donation (PyInt z) rnd io) tbl = (ServerError TypeError, tbl))
  ∧ serve (add_donation (PyBool true) rnd io) tbl = (ServerError TypeError, tbl)
  ∧ (∀ l, existsb (str_equals "quantity") l = true →
          serve (add_donation (PyList l) rnd io) tbl = (ServerError AttributeError, tbl))
  ∧ (∀ s, substring_of "quantity" s = true →
          serve (add_donation (PyStr s) rnd io) tbl = (ServerError AttributeError, tbl)).
Proof.
  split; [|split; [done|split]].
  - intros z Hz. unfold serve, add_donation, lift, mbind, M_bind, missing_required_data.
    simpl. by rewrite (proj2 (Z.eqb_neq z 0) Hz).
  - intros l Hl. unfold serve, add_donation, lift, mbind, M_bind, missing_required_data.
    simpl. rewrite Hl. by destruct l.
  - intros s Hs. unfold serve, add_donation, lift, mbind, M_bind, missing_required_data.
    cbn [request_json py_in truthy]. rewrite Hs.
    destruct s; [by destruct (String.prefix "quantity" "")|done].
Qed.


(** C9. Only the presence of 'quantity' is checked: a payload that binds
    it to null passes the guard, and (its other values being strings or
    null, the item name not null, and the commit going through) the
    request is answered 201 and the stored record's servings is
    "None Servings". *)
Theorem null_quantity_stored kv rnd (tbl : gmap Z Donation) :
  dict_lookup "quantity" kv = Some PyNone →
  (∀ k v, k ≠ "quantity" → dict_lookup k kv = Some v → plain v) →
  dict_lookup "itemname" kv ≠ Some PyNone →
  missing_required_data (PyDict kv) = Return false
  ∧ ∃ row,
      serve (add_donation (PyDict kv) rnd true) tbl =
        (Sent (Response
                 (PyDict [("message", PyStr "Donation successfully recorded");
                          ("data", to_dict row)]) 201),
         <[fresh_key tbl := row]> tbl)
      ∧ tbl !! fresh_key tbl = None
      ∧ servings row = Some "None Servings".
Proof.
  intros Hq Hplain Hname. split; [by apply missing_required_data_dict|].
  pose proof (add_donation_accepts kv _ rnd tbl Hq Hplain Hname) as Hcode.
  destruct (serve (add_donation (PyDict kv) rnd true) tbl) as [o tbl'] eqn:Hserve.
  destruct (add_donation_stored kv _ rnd true tbl o tbl' Hq Hserve Hcode)
    as (row & -> & -> & Hfresh & Hserv & _).
  by exists row.
Qed.

(** C10. The distance does not depend on the payload: the helper returns
    the same string for any two addresses under the same draw, and any
    two create requests that are stored under the same draw store the
    same distance, whatever their payloads and tables. *)
Theorem distance_ignores_payload rnd :
  (∀ donor_address1 donor_address2,
     calculate_distance_to_receiver donor_address1 rnd =
     calculate_distance_to_receiver donor_address2 rnd)
  ∧ (∀ kv1 kv2 io1 io2 (tbl1 tbl2 : gmap Z Donation) o1 o2 tbl1' tbl2',
       is_Some (dict_lookup "quantity" kv1) →
       is_Some (dict_lookup "quantity" kv2) →
       serve (add_donation (PyDict kv1) rnd io1) tbl1 = (o1, tbl1') →
       serve (add_donation (PyDict kv2) rnd io2) tbl2 = (o2, tbl2') →
       outcome_code o1 = 201 → outcome_code o2 = 201 →
       ∃ row1 row2,
         tbl1' !! fresh_key tbl1 = Some row1
         ∧ tbl2' !! fresh_key tbl2 = Some row2
         ∧ distance row1 = Some (calculate_distance_to_receiver PyNone rnd)
         ∧ distance row2 = distance row1).
Proof.
  split; [done|].
  intros kv1 kv2 io1 io2 tbl1 tbl2 o1 o2 tbl1' tbl2' [q1 Hq1] [q2 Hq2] Hs1 Hs2 Hc1 Hc2.
  destruct (add_donation_stored kv1 q1 rnd io1 tbl1 o1 tbl1' Hq1 Hs1 Hc1)
    as (row1 & _ & -> & _ & _ & _ & Hd1 & _).
  destruct (add_donation_stored kv2 q2 rnd io2 tbl2 o2 tbl2' Hq2 Hs2 Hc2)
    as (row2 & _ & -> & _ & _ & _ & Hd2 & _).
  exists row1, row2. rewrite !lookup_insert_eq.
  unfold calculate_distance_to_receiver. by rewrite Hd1, Hd2.
Qed.
End CreateClaims.

(** A payload with the single key 'quantity' binds no other key. *)
Lemma only_quantity q k v :
  k ≠ "quantity" → dict_lookup k [("quantity", q)] = Some v → plain v.
Proof.
  intros Hk. simpl. destruct (String.eqb_spec k "quantity"); done.
Qed.




Lemma null_quantity_stored_witness :
  missing_required_data (PyDict null_payload) = Return false
  ∧ ∃ row,
      serve (add_donation (rt := example_runtime) (PyDict null_payload)
               sample_draw true) ∅ =
        (Sent (Response
                 (PyDict [("message", PyStr "Donation successfully recorded");
                          ("data", to_dict row)]) 201),
         <[fresh_key ∅ := row]> ∅)
      ∧ (∅ : gmap Z Donation) !! fresh_key ∅ = None
      ∧ servings row = Some "None Servings".
Proof.
  apply (null_quantity_stored (rt := example_runtime) null_payload sample_draw ∅).
  - reflexivity.
  - apply only_quantity.
  - discriminate.
Defined.

Lemma distance_ignores_payload_witness :
  ∃ row1 row2,
    (serve (add_donation (rt := example_runtime)
              (PyDict [("quantity", PyInt 3); ("donorAddress", PyStr "12 Mill Lane")])
              sample_draw true) ∅).2 !! 1 = Some row1
    ∧ (serve (add_donation (rt := example_runtime)
                (PyDict [("donorAddress", PyStr "4 Quay Street"); ("quantity", PyInt 7)])
                sample_draw true) sample_table).2 !! 2 = Some row2
    ∧ distance row1 = Some "5.2 mi"
    ∧ distance row2 = distance row1.
Proof.
  edestruct (proj2 (distance_ignores_payload (rt := example_runtime) sample_draw)
               [("quantity", PyInt 3); ("donorAddress", PyStr "12 Mill Lane")]
               [("donorAddress", PyStr "4 Quay Street"); ("quantity", PyInt 7)]
               true true ∅ sample_table)
    as (row1 & row2 & H1 & H2 & Hd1 & Hd2).
  - by eexists.
  - by eexists.
  - apply surjective_pairing.
  - apply surjective_pairing.
  - vm_compute. reflexivity.
  - vm_compute. reflexivity.
  - exists row1, row2. split; [exact H1|]. split; [exact H2|].
    split; [exact Hd1|exact Hd2].
Defined.

(** ** Every way a handler can end *)

Ltac settle := simpl; unfold session_clean; simpl; eauto 12.

Section Cases.
Context {rt : Runtime}.

Lemma missing_required_data_false_dict kv :
  missing_required_data (PyDict kv) = Return false →
  is_Some (dict_lookup "quantity" kv).
Proof.
  unfold missing_required_data, py_in, dict_has.
  destruct (negb (truthy (PyDict kv))); [done|].
  destruct (dict_lookup "quantity" kv); [by eexists|done].
Qed.

(** A create request either leaves the table alone, answering 400 or 500
    or raising, or adds one pending row under an unused key and answers
    201. Either way its session has nothing left to write. *)
Lemma add_donation_cases request rnd io tbl r w :
  add_donation request rnd io (World tbl []) = (r, w) →
  (table w = tbl ∧ session_clean (objects w)
   ∧ (r = Return (Response (PyDict [("error", PyStr "Missing required data")]) 400)
      ∨ r = Return (Response
                      (PyDict [("error", PyStr "Failed to save donation to database")])
                      500)
      ∨ ∃ e, r = Raise e))
  ∨ (∃ row,
       r = Return (Response
                     (PyDict [("message", PyStr "Donation successfully recorded");
                              ("data", to_dict row)]) 201)
       ∧ io = true
       ∧ table w = <[fresh_key tbl := row]> tbl
       ∧ tbl !! fresh_key tbl = None
       ∧ status row = Some "pending"
       ∧ session_clean (objects w)).
Proof.
  intros Hrun.
  destruct request as [| |data];
    try (injection Hrun as <- <-; left; by settle).
  destruct (missing_required_data data) as [[|]|e] eqn:Hm.
  - rewrite add_donation_rejected in Hrun by done.
    injection Hrun as <- <-. left. settle.
  - destruct data as [| | | | |l|kv];
      try (unfold add_donation, lift, mbind, M_bind in Hrun;
           cbn [request_json] in Hrun; rewrite Hm in Hrun; simpl in Hrun;
           injection Hrun as <- <-; left; by settle).
    apply missing_required_data_false_dict in Hm.
    rewrite (add_donation_dict kv rnd io tbl _ Hm (new_donation_kw_dict kv _))
      in Hrun.
    destruct (insert_row _ _) as [row|e] eqn:Hrow.
    + destruct io; injection Hrun as <- <-.
      * right. exists row. apply insert_row_columns in Hrow as (_ & Hst & _).
        pose proof (fresh_key_fresh tbl). settle.
      * left. settle.
    + injection Hrun as <- <-. left. settle.
  - unfold add_donation, lift, mbind, M_bind in Hrun.
    cbn [request_json] in Hrun. rewrite Hm in Hrun.
    injection Hrun as <- <-. left. settle.
Qed.

(** A claim request either leaves the table alone, answering 404, 400 or
    500 or raising in the lookup, or turns the pending row it names into a
    claimed one and answers 200. Either way its session has nothing left
    to write. *)
Lemma claim_donation_cases donation_id io tbl r w :
  claim_donation donation_id io (World tbl []) = (r, w) →
  (table w = tbl ∧ session_clean (objects w)
   ∧ ((∃ b, r = Return (Response b 404)) ∨ (∃ b, r = Return (Response b 400))
      ∨ r = Return (Response
                      (PyDict [("error", PyStr "Failed to update donation status")])
                      500)
      ∨ r = Raise OverflowError))
  ∨ (∃ d b,
       r = Return (Response b 200)
       ∧ io = true
       ∧ tbl !! donation_id = Some d
       ∧ status d = Some "pending"
       ∧ table w = <[donation_id := with_status "claimed" d]> tbl
       ∧ session_clean (objects w)).
Proof.
  intros Hrun.
  destruct (tbl !! donation_id) as [d|] eqn:Hd.
  - destruct (decide (status d = Some "pending")) as [Hst|Hst].
    + destruct io.
      * rewrite (claim_pending_committed _ _ d) in Hrun by done.
        injection Hrun as <- <-. right. exists d. settle.
      * rewrite (claim_pending_refused _ _ d) in Hrun by done.
        injection Hrun as <- <-. left. settle.
    + rewrite (claim_not_pending _ _ io d) in Hrun by done.
      injection Hrun as <- <-. left. settle.
  - destruct (sqlite_int donation_id) eqn:Hint.
    + rewrite claim_not_found in Hrun by done.
      injection Hrun as <- <-. left. settle.
    + rewrite claim_overflow in Hrun by done.
      injection Hrun as <- <-. left. settle.
Qed.

(** Listing reads. *)
Lemma get_donations_reads tbl :
  serve get_donations tbl =
    (Sent (Response (PyList (to_dict <$> (snd <$> map_to_list tbl))) 200), tbl).
Proof. reflexivity. Qed.

(** What one request can do to the table. *)
Lemma handle_cases rq tbl o tbl' :
  handle rq tbl = (o, tbl') →
  (tbl' = tbl ∧ outcome_code o ≠ 201)
  ∨ (outcome_code o = 201
     ∧ ∃ row, tbl' = <[fresh_key tbl := row]> tbl
              ∧ tbl !! fresh_key tbl = None ∧ status row = Some "pending")
  ∨ (outcome_code o = 200
     ∧ ∃ k d, tbl !! k = Some d ∧ status d = Some "pending"
              ∧ tbl' = <[k := with_status "claimed" d]> tbl).
Proof.
  destruct rq as [|data rnd io|donation_id io]; simpl; unfold serve.
  - intros [= <- <-]. by left.
  - destruct (add_donation _ _ _ _) as [r w] eqn:Hrun.
    apply add_donation_cases in Hrun
      as [(Ht & _ & [->|[->|[e ->]]])|(row & -> & _ & Ht & Hf & Hst & _)];
      intros [= <- <-]; simpl; eauto 10.
    left. split; [done|]. by destruct e.
  - destruct (claim_donation _ _ _) as [r w] eqn:Hrun.
    apply claim_donation_cases in Hrun
      as [(Ht & _ & [[b ->] | [[b ->] | [->| ->]]])
         |(d & b & -> & _ & Hd & Hst & Ht & _)];
      intros [= <- <-]; simpl; eauto 10.
Qed.
End Cases.

(** ** The life cycle of a record *)

Section Lifecycle.
Context {rt : Runtime}.

(** One request changes a stored row in one way only, from pending to
    claimed, and a row it adds is pending. *)
Lemma handle_row rq (tbl : gmap Z Donation) k d' :
  (handle rq tbl).2 !! k = Some d' →
  match tbl !! k with
  | Some d => d' = d ∨ (status d = Some "pending" ∧ d' = with_status "claimed" d)
  | None => status d' = Some "pending"
  end.
Proof.
  destruct (handle rq tbl) as [o tbl'] eqn:Hh. simpl.
  apply handle_cases in Hh
    as [[-> _]|[(_ & row & -> & Hfresh & Hst)|(_ & k0 & d & Hd & Hst & ->)]].
  - intros ->. by left.
  - destruct (decide (fresh_key tbl = k)) as [<-|Hne].
    + rewrite lookup_insert_eq, Hfresh. by intros [= <-].
    + rewrite lookup_insert_ne by done. intros ->. by left.
  - destruct (decide (k0 = k)) as [<-|Hne].
    + rewrite lookup_insert_eq, Hd. intros [= <-]. by right.
    + rewrite lookup_insert_ne by done. intros ->. by left.
Qed.

Lemma handle_keeps_lifecycle rq (tbl : gmap Z Donation) :
  map_Forall (λ _, lifecycle_status) tbl →
  map_Forall (λ _, lifecycle_status) (handle rq tbl).2.
Proof.
  intros Hinv k d' Hk. apply handle_row in Hk.
  destruct (tbl !! k) as [d|] eqn:Hd.
  - destruct Hk as [->|[_ ->]]; [by apply (Hinv k)|by right].
  - by left.
Qed.

Lemma run_keeps_lifecycle rqs (tbl : gmap Z Donation) :
  map_Forall (λ _, lifecycle_status) tbl →
  map_Forall (λ _, lifecycle_status) (run rqs tbl).2.
Proof.
  revert tbl. induction rqs as [|rq rqs IH]; intros tbl Hinv; [done|].
  simpl. pose proof (handle_keeps_lifecycle rq tbl Hinv) as Hstep.
  destruct (handle rq tbl) as [o tbl']. specialize (IH tbl' Hstep).
  by destruct (run rqs tbl') as [os tbl''].
Qed.

(** C4. Starting from the empty table, after any sequence of list, create
    and claim requests every record's status is 'pending' or 'claimed',
    never 'delivered'; and a single request, on any table, leaves each
    row as it is or takes it from pending to claimed, and gives a row it
    adds the status pending. *)
Theorem status_pending_or_claimed :
  (∀ rqs k d,
     (run rqs ∅).2 !! k = Some d →
     (status d = Some "pending" ∨ status d = Some "claimed")
     ∧ status d ≠ Some "delivered")
  ∧ (∀ rq (tbl : gmap Z Donation) k d',
       (handle rq tbl).2 !! k = Some d' →
       match tbl !! k with
       | Some d =>
           d' = d ∨ (status d = Some "pending" ∧ d' = with_status "claimed" d)
       | None => status d' = Some "pending"
       end).
Proof.
  split.
  - intros rqs k d Hk.
    assert (lifecycle_status d) as Hd.
    { apply (run_keeps_lifecycle rqs ∅ (map_Forall_empty _) k d Hk). }
    split; [done|]. destruct Hd as [Hd|Hd]; rewrite Hd; discriminate.
  - apply handle_row.
Qed.

(** C6. A mutation whose commit fails is answered 500, the table is
    exactly as before and the session has nothing left to write: for a
    create whose commit the storage engine refuses or whose row the table
    refuses, and for a claim whose commit the engine refuses. Whenever
    [claim_donation] answers 500 this is so. A request whose commit is
    refused leaves the answer of the next list request as it was. *)
Theorem failed_commit_leaves_table (tbl : gmap Z Donation) :
  (∀ kv rnd,
     is_Some (dict_lookup "quantity" kv) →
     ∃ os,
       add_donation (PyDict kv) rnd false (World tbl []) =
         (Return (Response
                    (PyDict [("error", PyStr "Failed to save donation to database")])
                    500),
          World tbl os)
       ∧ session_clean os)
  ∧ (∀ kv rnd io kw e,
       is_Some (dict_lookup "quantity" kv) →
       new_donation_kw (PyDict kv)
         (calculate_distance_to_receiver
            (default (PyStr "") (dict_lookup "donorAddress" kv)) rnd) = Return kw →
       insert_row (fresh_key tbl) kw = Raise e →
       ∃ os,
         add_donation (PyDict kv) rnd io (World tbl []) =
           (Return (Response
                      (PyDict [("error", PyStr "Failed to save donation to database")])
                      500),
            World tbl os)
         ∧ session_clean os)
  ∧ (∀ donation_id d,
       tbl !! donation_id = Some d → status d = Some "pending" →
       ∃ os,
         claim_donation donation_id false (World tbl []) =
           (Return (Response
                      (PyDict [("error", PyStr "Failed to update donation status")])
                      500),
            World tbl os)
         ∧ session_clean os)
  ∧ (∀ donation_id io r w,
       claim_donation donation_id io (World tbl []) = (Return r, w) →
       status_code r = 500 →
       table w = tbl ∧ session_clean (objects w))
  ∧ (∀ rq o tbl',
       handle rq tbl = (o, tbl') →
       match rq with
       | List_ => True
       | Create _ _ io | Claim _ io => io = false
       end →
       tbl' = tbl ∧ serve get_donations tbl' = serve get_donations tbl).
Proof.
  split; [|split; [|split; [|split]]].
  - intros kv rnd Hq.
    rewrite (add_donation_dict kv rnd false tbl _ Hq (new_donation_kw_dict kv _)).
    destruct (insert_row _ _); by eexists.
  - intros kv rnd io kw e Hq Hkw Hrow.
    rewrite (add_donation_dict kv rnd io tbl kw Hq Hkw), Hrow. by eexists.
  - intros donation_id d Hd Hst.
    rewrite (claim_pending_refused _ _ d) by done. by eexists.
  - intros donation_id io r w Hrun Hcode.
    apply claim_donation_cases in Hrun
      as [(Ht & Hs & _)|(d & b & [= ->] & _)]; [done|discriminate].
  - intros rq o tbl' Hh Hio.
    destruct rq as [|data rnd io|donation_id io]; simpl in Hh.
    + rewrite get_donations_reads in Hh. by injection Hh as <- <-.
    + unfold serve in Hh.
      destruct (add_donation _ _ _ _) as [r w] eqn:Hrun.
      apply add_donation_cases in Hrun as [(Ht & _)|(row & _ & -> & _)]; [|done].
      destruct r; injection Hh as <- <-; by rewrite Ht.
    + unfold serve in Hh.
      destruct (claim_donation _ _ _) as [r w] eqn:Hrun.
      apply claim_donation_cases in Hrun as [(Ht & _)|(d & b & _ & -> & _)]; [|done].
      destruct r; injection Hh as <- <-; by rewrite Ht.
Qed.
End Lifecycle.

Lemma status_pending_or_claimed_witness :
  (status (with_status "claimed" sample_row) = Some "pending"
   ∨ status (with_status "claimed" sample_row) = Some "claimed")
  ∧ status (with_status "claimed" sample_row) ≠ Some "delivered".
Proof.
  apply (proj1 (status_pending_or_claimed (rt := example_runtime))
           [Create (PyDict sample_payload) sample_draw true; Claim 1 true; List_]
           1 (with_status "claimed" sample_row)).
  vm_compute. reflexivity.
Defined.

Lemma failed_commit_leaves_table_witness :
  (∃ os,
     add_donation (rt := example_runtime) (PyDict sample_payload) sample_draw false
       (World sample_table []) =
       (Return (Response
                  (PyDict [("error", PyStr "Failed to save donation to database")])
                  500),
        World sample_table os)
     ∧ session_clean os)
  ∧ (∃ os,
       add_donation (rt := example_runtime)
         (PyDict [("quantity", PyInt 4); ("itemname", PyNone)]) sample_draw true
         (World sample_table []) =
         (Return (Response
                    (PyDict [("error", PyStr "Failed to save donation to database")])
                    500),
          World sample_table os)
       ∧ session_clean os)
  ∧ (∃ os,
       claim_donation (rt := example_runtime) 1 false (World sample_table []) =
         (Return (Response
                    (PyDict [("error", PyStr "Failed to update donation status")])
                    500),
          World sample_table os)
       ∧ session_clean os)
  ∧ (handle (rt := example_runtime) (Claim 1 false) sample_table).2 = sample_table.
Proof.
  destruct (failed_commit_leaves_table (rt := example_runtime) sample_table)
    as (Hcreate & Hrow & Hclaim & _ & Hany).
  split; [|split; [|split]].
  - apply Hcreate. by eexists.
  - eapply (Hrow [("quantity", PyInt 4); ("itemname", PyNone)] sample_draw true).
    + by eexists.
    + reflexivity.
    + vm_compute. reflexivity.
  - apply (Hclaim 1 sample_row); reflexivity.
  - eapply (Hany (Claim 1 false)); [apply surjective_pairing|reflexivity].
Defined.

(** ** The distance string *)

Lemma round_half_even_bounds num den lo hi :
  0 < den → lo * den ≤ num → num ≤ hi * den →
  lo ≤ round_half_even num den ≤ hi.
Proof.
  intros Hden Hlo Hhi. unfold round_half_even.
  pose proof (Z.div_mod num den ltac:(lia)) as Hdm.
  pose proof (Z.mod_pos_bound num den Hden) as Hr.
  assert (lo ≤ num / den) by (apply Z.div_le_lower_bound; lia).
  assert (num / den ≤ hi) by (apply Z.div_le_upper_bound; lia).
  destruct (Z.compare_spec (2 * (num mod den)) den) as [Heq|Hlt|Hgt].
  - destruct (Z.even (num / den)); [lia|]. nia.
  - lia.
  - nia.
Qed.

(** Below an odd [k] the tie at [k + 1/2] goes up, to the even [k + 1]. *)
Lemma round_half_even_below_odd num den k :
  0 < den → Z.odd k = true →
  round_half_even num den ≤ k ↔ 2 * num < (2 * k + 1) * den.
Proof.
  intros Hden Hodd. unfold round_half_even.
  pose proof (Z.div_mod num den ltac:(lia)) as Hdm.
  pose proof (Z.mod_pos_bound num den Hden) as Hr.
  set (q := num / den) in *. set (r := num mod den) in *.
  destruct (Z.compare_spec (2 * r) den) as [Heq|Hlt|Hgt].
  - destruct (Z.even q) eqn:Heven.
    + assert (q ≠ k) by (intros ->; rewrite <- Z.negb_odd, Hodd in Heven; done).
      split; intros; nia.
    + split; intros; nia.
  - split; intros; nia.
  - split; intros; nia.
Qed.

Lemma float_in_tenths neg m e :
  float_in (1#2) 10 (FFinite neg m e) →
  neg = false
  ∧ 5 ≤ tenths m e ≤ 100
  ∧ (tenths m e ≤ 99 ↔ Qlt (float_value neg m e) (199#20)).
Proof.
  unfold float_in, float_value, tenths, Qle, Qlt.
  pose proof (N2Z.is_nonneg m) as Hm.
  destruct (0 <=? e) eqn:He.
  - apply Z.leb_le in He.
    assert (0 < 2 ^ e) as Hpow by (by apply Z.pow_pos_nonneg).
    destruct neg; simpl; intros [Hlo Hhi]; [nia|].
    split; [done|]. split; [nia|]. split; intros; nia.
  - apply Z.leb_gt in He.
    assert (0 < 2 ^ (- e)) as Hpow by (apply Z.pow_pos_nonneg; lia).
    destruct neg; simpl; rewrite Z2Pos.id by done; intros [Hlo Hhi]; [nia|].
    split; [done|]. split.
    + apply round_half_even_bounds; lia.
    + rewrite round_half_even_below_odd by done. split; intros; lia.
Qed.

(** The strings of 0.5 to 10.0: each matches the pattern and denotes its
    number of tenths. *)
Lemma tenths_rendered t :
  5 ≤ t ≤ 100 →
  let s := ("" +:+ pretty (t / 10) +:+ "." +:+ pretty (t mod 10)) +:+ " mi" in
  fullmatch distance_pattern s = true ∧ distance_value s = Some (Qmake t 10).
Proof.
  intros Ht.
  assert (Forall (λ t,
            let s := ("" +:+ pretty (t / 10) +:+ "." +:+ pretty (t mod 10)) +:+ " mi" in
            fullmatch distance_pattern s = true ∧ distance_value s = Some (Qmake t 10))
          (seqZ 5 96)) as Hall.
  { vm_compute seqZ.
    repeat (constructor; [split; vm_compute; reflexivity|]).
    constructor. }
  rewrite Forall_forall in Hall. apply Hall, elem_of_seqZ. lia.
Qed.

(** *** The draw *)

Ltac eval_pow :=
  repeat match goal with
  | |- context [2 ^ ?x] =>
      let v := eval vm_compute in (2 ^ x) in progress change (2 ^ x) with v
  | H : context [2 ^ ?x] |- _ =>
      let v := eval vm_compute in (2 ^ x) in progress change (2 ^ x) with v in H
  end.

(** A result below [2^60] with a negative exponent is finite. *)
Lemma no_overflow m e : 0 ≤ m < 2 ^ 60 → e ≤ 0 → (0 <? m) && (1024 <=? Z.log2 m + e) = false.
Proof.
  intros [Hm0 Hm] He. destruct (0 <? m) eqn:Hpos; [|done]. simpl.
  apply Z.ltb_lt in Hpos. apply Z.leb_gt.
  assert (Z.log2 m < 60) by (by apply Z.log2_lt_pow2). lia.
Qed.

(** The product [9.5 * (k / 2^53)], in units of [2^-54]: at most
    [9.5 - 2^-49]. *)
Lemma product_rounded k :
  (k < 2 ^ 53)%N →
  ∃ m e,
    round_binary64 false (19 * Z.of_N k) (-54) = FFinite false (Z.to_N m) e
    ∧ 0 ≤ m ∧ -54 ≤ e ≤ -49
    ∧ m * 2 ^ (e + 54) ≤ 19 * 2 ^ 53 - 32.
Proof.
  intros Hk. assert (0 ≤ Z.of_N k < 2 ^ 53) as Hz by lia.
  set (M := 19 * Z.of_N k). assert (0 ≤ M ≤ 19 * 2 ^ 53 - 19) as HM by lia.
  unfold round_binary64.
  destruct (decide (M = 0)) as [->|Hne].
  { exists 0, (-54). simpl. split; [done|]. lia. }
  pose proof (Z.log2_spec M ltac:(lia)) as Hlog.
  assert (Z.log2 M < 58) as Hlt by (apply Z.log2_lt_pow2; lia).
  pose proof (Z.log2_nonneg M) as Hnn.
  set (L := Z.log2 M) in *.
  replace (Z.max (L + 1 - 53) (-1074 - -54)) with (L - 52) by lia.
  destruct (0 <? L - 52) eqn:Hs.
  - apply Z.ltb_lt in Hs.
    assert (L = 53 ∨ L = 54 ∨ L = 55 ∨ L = 56 ∨ L = 57) as HL by lia.
    exists (round_half_even M (2 ^ (L - 52))), (-54 + (L - 52)).
    assert (0 ≤ round_half_even M (2 ^ (L - 52))
            ∧ round_half_even M (2 ^ (L - 52)) * 2 ^ (-54 + (L - 52) + 54)
              ≤ 19 * 2 ^ 53 - 32) as [Hlo Hhi].
    { destruct HL as [->|[->|[->|[->| ->]]]]; eval_pow.
      - pose proof (round_half_even_bounds M 2 0 (2 ^ 53) ltac:(lia) ltac:(lia) ltac:(lia)).
        lia.
      - pose proof (round_half_even_bounds M 4 0 (2 ^ 53) ltac:(lia) ltac:(lia) ltac:(lia)).
        lia.
      - pose proof (round_half_even_bounds M 8 0 (2 ^ 53) ltac:(lia) ltac:(lia) ltac:(lia)).
        lia.
      - pose proof (round_half_even_bounds M 16 0 (2 ^ 53) ltac:(lia) ltac:(lia) ltac:(lia)).
        lia.
      - pose proof (round_half_even_bounds M 32 0 (2 ^ 53) ltac:(lia) ltac:(lia) ltac:(lia)).
        pose proof (proj2 (round_half_even_below_odd M 32 (19 * 2 ^ 48 - 1)
                             ltac:(lia) eq_refl) ltac:(lia)).
        lia. }
    rewrite no_overflow; [|split; [done|]|lia].
    + split; [done|]. split; [done|]. split; [lia|done].
    + assert (0 < 2 ^ (-54 + (L - 52) + 54)) by (apply Z.pow_pos_nonneg; lia). nia.
  - apply Z.ltb_ge in Hs. exists M, (-54).
    assert (M < 2 ^ 53).
    { apply Z.log2_lt_pow2; lia. }
    rewrite no_overflow by lia.
    split; [done|]. simpl. lia.
Qed.

(** Rounding to a grid does not cross a point of the grid. *)
Lemma round_half_even_grid num s g lo hi :
  0 ≤ s → 0 ≤ g →
  (2 ^ (s + g) | lo) → (2 ^ (s + g) | hi) →
  lo ≤ num * 2 ^ g ≤ hi →
  lo ≤ round_half_even num (2 ^ s) * 2 ^ (s + g) ≤ hi.
Proof.
  intros Hs Hg [a ->] [b ->] [Hlo Hhi].
  assert (0 < 2 ^ s) by (by apply Z.pow_pos_nonneg).
  assert (0 < 2 ^ g) by (by apply Z.pow_pos_nonneg).
  rewrite Z.pow_add_r in * by done.
  destruct (round_half_even_bounds num (2 ^ s) a b) as [Ha Hb]; [done|..].
  - apply (Z.mul_le_mono_pos_r _ _ (2 ^ g)); [done|]. lia.
  - apply (Z.mul_le_mono_pos_r _ _ (2 ^ g)); [done|]. lia.
  - split.
    + transitivity (a * 2 ^ s * 2 ^ g); [lia|].
      rewrite Z.mul_assoc. apply Z.mul_le_mono_nonneg_r; [lia|].
      apply Z.mul_le_mono_nonneg_r; lia.
    + transitivity (b * 2 ^ s * 2 ^ g); [|lia].
      rewrite Z.mul_assoc. apply Z.mul_le_mono_nonneg_r; [lia|].
      apply Z.mul_le_mono_nonneg_r; lia.
Qed.

Lemma sum_rounded m e :
  0 ≤ m → -54 ≤ e ≤ -49 → m * 2 ^ (e + 54) ≤ 19 * 2 ^ 53 - 32 →
  ∃ m' e',
    float_add half (FFinite false (Z.to_N m) e)
      = FFinite false (Z.to_N m') e'
    ∧ 0 ≤ m' ∧ -54 ≤ e' ≤ -49
    ∧ 2 ^ 53 ≤ m' * 2 ^ (e' + 54) ≤ 20 * 2 ^ 53 - 32.
Proof.
  intros Hm He Hbound. unfold float_add, half, signed.
  rewrite Z2N.id by done.
  replace (Z.min (-1) e) with e by lia.
  rewrite Z.sub_diag, Z.mul_1_r. change (Z.of_N 1) with 1. rewrite Z.mul_1_l.
  assert (0 < 2 ^ (-1 - e)) as Hp by (apply Z.pow_pos_nonneg; lia).
  assert (0 < 2 ^ (e + 54)) as Hg by (apply Z.pow_pos_nonneg; lia).
  assert (2 ^ (-1 - e) * 2 ^ (e + 54) = 2 ^ 53) as Hsplit.
  { rewrite <- Z.pow_add_r by lia. f_equal. lia. }
  set (M := 2 ^ (-1 - e) + m) in *.
  assert (0 < M) as HM by lia.
  assert (2 ^ 53 ≤ M * 2 ^ (e + 54) ≤ 20 * 2 ^ 53 - 32) as HV by nia.
  replace (M =? 0) with false by (symmetry; apply Z.eqb_neq; lia).
  replace (M <? 0) with false by (symmetry; apply Z.ltb_ge; lia).
  rewrite Z.abs_eq by lia.
  unfold round_binary64.
  pose proof (Z.log2_spec M HM) as Hlog.
  set (L := Z.log2 M) in *.
  assert (L + (e + 54) < 58) as HL.
  { assert (M < 2 ^ (4 - e)) as HM4.
    { assert (2 ^ (4 - e) * 2 ^ (e + 54) = 2 ^ 58) as H58.
      { rewrite <- Z.pow_add_r by lia. f_equal. lia. }
      eval_pow. nia. }
    apply Z.log2_lt_pow2 in HM4; [|done]. fold L in HM4. lia. }
  replace (Z.max (L + 1 - 53) (-1074 - e)) with (Z.max (L - 52) (-1074 - e)) by lia.
  destruct (0 <? Z.max (L - 52) (-1074 - e)) eqn:Hs.
  - apply Z.ltb_lt in Hs.
    replace (Z.max (L - 52) (-1074 - e)) with (L - 52) in * by lia.
    exists (round_half_even M (2 ^ (L - 52))), (e + (L - 52)).
    assert (2 ^ 53 ≤ round_half_even M (2 ^ (L - 52)) * 2 ^ (L - 52 + (e + 54))
            ≤ 20 * 2 ^ 53 - 32) as Hrounded.
    { assert (2 ^ (L - 52 + (e + 54)) | 2 ^ 5) as Hdiv.
      { exists (2 ^ (5 - (L - 52 + (e + 54)))).
        rewrite <- Z.pow_add_r by lia. f_equal. lia. }
      apply round_half_even_grid; [lia|lia| | |done].
      - eapply Z.divide_trans; [exact Hdiv|]. by exists (2 ^ 48).
      - eapply Z.divide_trans; [exact Hdiv|]. by exists (20 * 2 ^ 48 - 1). }
    replace (e + (L - 52) + 54) with (L - 52 + (e + 54)) by lia.
    assert (0 < 2 ^ (L - 52 + (e + 54))) by (apply Z.pow_pos_nonneg; lia).
    assert (0 ≤ round_half_even M (2 ^ (L - 52))) by nia.
    rewrite no_overflow; [|split; [done|eval_pow; nia]|lia].
    split; [done|]. split; [done|]. split; [lia|done].
  - apply Z.ltb_ge in Hs. exists M, e.
    rewrite no_overflow; [|split; [lia|eval_pow; nia]|lia].
    split; [done|]. split; [lia|]. split; [done|done].
Qed.


(** Every draw of [random.uniform(0.5, 10.0)] lies in [0.5, 10.0). *)
Lemma random_uniform_range k :
  (k < 2 ^ 53)%N → float_in (1#2) 10 (random_uniform half ten k).
Proof.
  intros Hk. unfold random_uniform, random_random.
  change (float_sub ten half) with (FFinite false 19 (-1)).
  unfold float_mul. simpl xorb. change (Z.of_N 19) with 19.
  change (-1 + -53) with (-54).
  destruct (product_rounded k Hk) as (m & e & -> & Hm & He & Hbound).
  destruct (sum_rounded m e Hm He Hbound) as (m' & e' & Hsum & Hm' & He' & Hlo & Hhi).
  rewrite Hsum.
  unfold float_in, float_value.
  replace (0 <=? e') with false by (symmetry; apply Z.leb_gt; lia).
  rewrite Z2N.id by done.
  assert (0 < 2 ^ (- e')) as Hp by (apply Z.pow_pos_nonneg; lia).
  assert (0 < 2 ^ (e' + 54)) as Hg by (apply Z.pow_pos_nonneg; lia).
  assert (2 ^ (- e') * 2 ^ (e' + 54) = 2 ^ 54) as Hsplit.
  { rewrite <- Z.pow_add_r by lia. f_equal. lia. }
  unfold Qle, Qlt. simpl. rewrite Z2Pos.id by done.
  eval_pow. split; nia.
Qed.

(** *** The string *)

(** The string made from any float in [0.5, 10.0). *)
Lemma distance_of_sample sample :
  float_in (1#2) 10 sample →
  let s := format_1f sample +:+ " mi" in
  fullmatch distance_pattern s = true
  ∧ ∃ v, distance_value s = Some v
         ∧ Qle (1#2) v ∧ Qle v 10
         ∧ (Qlt v 10 ↔ float_in (1#2) (199#20) sample).
Proof.
  destruct sample as [|neg|neg m e]; try done.
  intros Hin. pose proof Hin as [Hlo Hhi].
  apply float_in_tenths in Hin as (-> & Ht & H99).
  unfold format_1f.
  destruct (tenths_rendered (tenths m e) Ht) as [Hmatch Hvalue].
  cbv zeta in *. split; [done|].
  exists (Qmake (tenths m e) 10). split; [done|].
  unfold float_in. rewrite <- H99. unfold Qle, Qlt. simpl.
  repeat split; try lia. tauto.
Qed.

(** C7, as the code has it. For every draw of the generator the sample
    [random.uniform(0.5, 10.0)] lies in [0.5, 10.0) and the distance string
    matches [^[0-9]+\.[0-9] mi$]; the number the string shows is the
    sample rounded to one decimal, which lies in [0.5, 10.0] with both ends
    included, and is below 10.0 exactly when the sample is below 9.95. *)
Theorem distance_string_format donor_address rnd :
  (rnd < 2 ^ 53)%N →
  let sample := random_uniform half ten rnd in
  let s := calculate_distance_to_receiver donor_address rnd in
  float_in (1#2) 10 sample
  ∧ fullmatch distance_pattern s = true
  ∧ ∃ v, distance_value s = Some v
         ∧ Qle (1#2) v ∧ Qle v 10
         ∧ (Qlt v 10 ↔ float_in (1#2) (199#20) sample).
Proof.
  intros Hrnd sample s.
  pose proof (random_uniform_range rnd Hrnd) as Hin.
  split; [done|]. by apply distance_of_sample.
Qed.

Lemma distance_string_format_witness :
  float_in (1#2) 10 (random_uniform half ten sample_draw)
  ∧ fullmatch distance_pattern (calculate_distance_to_receiver PyNone sample_draw) = true
  ∧ ∃ v, distance_value (calculate_distance_to_receiver PyNone sample_draw) = Some v
         ∧ Qle (1#2) v ∧ Qle v 10
         ∧ (Qlt v 10 ↔ float_in (1#2) (199#20) (random_uniform half ten sample_draw)).
Proof.
  apply (distance_string_format PyNone sample_draw).
  reflexivity.
Defined.

(** C7 as stated fails: the largest draw, [2^53 - 1], gives the sample
    [10 - 2^-49], and the string made from it is "10.0 mi", whose number
    is not below 10.0. *)
Lemma distance_string_reaches_ten :
  ¬ (∀ donor_address rnd,
       (rnd < 2 ^ 53)%N →
       let s := calculate_distance_to_receiver donor_address rnd in
       fullmatch distance_pattern s = true
       ∧ ∃ v, distance_value s = Some v ∧ Qle (1#2) v ∧ Qlt v 10).
Proof.
  intros Hclaim.
  destruct (Hclaim PyNone (2 ^ 53 - 1)%N eq_refl) as (_ & v & Hv & _ & Hlt).
  vm_compute in Hv. injection Hv as <-. discriminate Hlt.
Qed.

(** ** Claims that overlap *)

Section Threads.
Context {rt : Runtime}.

(** The two steps of a request, taken one right after the other, are the
    request served alone. *)
Lemma advance_twice tbl donation_id io :
  let '(tbl1, t1) := advance tbl (Waiting donation_id io) in
  advance tbl1 t1 =
    let '(o, tbl') := serve (claim_donation donation_id io) tbl in
    (tbl', Done o).
Proof.
  unfold advance, serve, claim_donation, mbind, M_bind, query_get.
  cbn -[claim_loaded].
  destruct (tbl !! donation_id) as [row|]; cbn -[claim_loaded].
  - by destruct (claim_loaded donation_id io (Some 0%nat) _) as [[r|e] w'].
  - by destruct (sqlite_int donation_id).
Qed.

Lemma advance_lookup tbl donation_id io row :
  tbl !! donation_id = Some row →
  advance tbl (Waiting donation_id io) =
    (tbl, Loaded donation_id io [Persistent donation_id (Some row) None] (Some 0%nat)).
Proof. intros Hrow. unfold advance, query_get. simpl. by rewrite Hrow. Qed.

(** The request acts on the status it loaded, and its UPDATE names the
    row by key alone. *)
Lemma advance_commit tbl donation_id row current :
  status row = Some "pending" →
  tbl !! donation_id = Some current →
  advance tbl (Loaded donation_id true
                 [Persistent donation_id (Some row) None] (Some 0%nat)) =
    (<[donation_id := with_status "claimed" current]> tbl,
     Done (Sent (Response
                   (PyDict [("message",
                             PyStr ("Donation " +:+ pretty donation_id
                                    +:+ " claimed successfully"))]) 200))).
Proof.
  intros Hst Hcur. unfold advance. run_view. rewrite Hst. simpl.
  by rewrite Hcur.
Qed.

Lemma advance_conflict tbl donation_id io row :
  status row ≠ Some "pending" →
  advance tbl (Loaded donation_id io
                 [Persistent donation_id (Some row) None] (Some 0%nat)) =
    (tbl,
     Done (Sent (Response
                   (PyDict [("message",
                             PyStr ("Donation " +:+ pretty donation_id
                                    +:+ " is already "
                                    +:+ column_str (status row)))]) 400))).
Proof.
  intros Hst. unfold advance. run_view. by rewrite decide_False.
Qed.
End Threads.

Section Overlap.
Context {rt : Runtime}.
Variables (tbl0 : gmap Z Donation) (donation_id : Z) (d : Donation).
Hypothesis Hrow : tbl0 !! donation_id = Some d.
Hypothesis Hpending : status d = Some "pending".

Lemma step_length i st : length (step i st).2 = length st.2.
Proof.
  unfold step. destruct (st.2 !! i) as [t|]; [|done].
  destruct (advance st.1 t). simpl. by rewrite length_insert.
Qed.

Lemma interleave_length schedule st :
  length (interleave schedule st).2 = length st.2.
Proof.
  revert st. induction schedule as [|i rest IH]; intros st; [done|].
  simpl. by rewrite IH, step_length.
Qed.

Lemma step_overlap_inv i st :
  overlap_inv tbl0 donation_id d st → overlap_inv tbl0 donation_id d (step i st).
Proof.
  destruct st as [tbl ts]. unfold step. simpl.
  destruct (ts !! i) as [t|] eqn:Ht; [|done].
  pose proof (lookup_lt_Some _ _ _ Ht) as Hi.
  unfold overlap_inv at 1. simpl.
  intros [[-> Hearly]|(-> & Hall & j & tj & Hj & H200)].
  - destruct (Hearly i t Ht) as [->| ->].
    + rewrite (advance_lookup _ _ _ d) by done. left. simpl. split; [done|].
      intros j t. rewrite list_lookup_insert_Some.
      intros [(_ & <- & _)|[_ Hjt]]; [by right|by eapply Hearly].
    + rewrite (advance_commit _ _ d d) by done. right. simpl. split; [done|]. split.
      * intros j t. rewrite list_lookup_insert_Some.
        intros [(_ & <- & _)|[_ Hjt]]; [|left; by eapply Hearly].
        right. right. eexists. split; [done|]. by left.
      * exists i. eexists. by rewrite list_lookup_insert_eq.
  - assert (<[donation_id := with_status "claimed" d]> tbl0 !! donation_id
            = Some (with_status "claimed" d)) as Hcur by apply lookup_insert_eq.
    destruct (Hall i t Ht) as [[->| ->]|[->|(o & -> & Ho)]].
    + rewrite (advance_lookup _ _ _ _ Hcur). right. simpl. split; [done|]. split.
      * intros k t. rewrite list_lookup_insert_Some.
        intros [(_ & <- & _)|[_ Hkt]]; [right; by left|by eapply Hall].
      * exists j, tj. split; [|done]. rewrite list_lookup_insert_ne; [done|].
        intros <-. rewrite Ht in Hj. by injection Hj as <-.
    + rewrite (advance_commit _ _ d _ Hpending Hcur). right. simpl.
      split; [by rewrite insert_insert_eq|]. split.
      * intros k t. rewrite list_lookup_insert_Some.
        intros [(_ & <- & _)|[_ Hkt]]; [|by eapply Hall].
        right. right. eexists. split; [done|]. by left.
      * exists i. eexists. by rewrite list_lookup_insert_eq.
    + rewrite advance_conflict by done. right. simpl. split; [done|]. split.
      * intros k t. rewrite list_lookup_insert_Some.
        intros [(_ & <- & _)|[_ Hkt]]; [|by eapply Hall].
        right. right. eexists. split; [done|]. by right.
      * exists j, tj. split; [|done]. rewrite list_lookup_insert_ne; [done|].
        intros <-. rewrite Ht in Hj. by injection Hj as <-.
    + simpl. rewrite list_insert_id by done. right. eauto 10.
Qed.

Lemma interleave_overlap_inv schedule st :
  overlap_inv tbl0 donation_id d st →
  overlap_inv tbl0 donation_id d (interleave schedule st).
Proof.
  revert st. induction schedule as [|i rest IH]; intros st Hinv; [done|].
  simpl. by apply IH, step_overlap_inv.
Qed.

(** However the steps of [n] claims of one pending record alternate, once
    any of them is answered the record is claimed and some request got a
    200, and every answer is a 200 or a 400. *)
Lemma overlapping_claims n schedule tbl ts :
  interleave schedule (tbl0, replicate n (Waiting donation_id true)) = (tbl, ts) →
  length ts = n
  ∧ (∀ j t, ts !! j = Some t → finished t = true →
            answered 200 t = true ∨ answered 400 t = true)
  ∧ ((∃ j t, ts !! j = Some t ∧ finished t = true) →
     tbl = <[donation_id := with_status "claimed" d]> tbl0
     ∧ ∃ j t, ts !! j = Some t ∧ answered 200 t = true).
Proof.
  intros Hrun.
  pose proof (interleave_length schedule (tbl0, replicate n (Waiting donation_id true)))
    as Hlen.
  assert (overlap_inv tbl0 donation_id d (tbl, ts)) as Hinv.
  { rewrite <- Hrun. apply interleave_overlap_inv. left. split; [done|].
    intros j t [-> _]%lookup_replicate. by left. }
  rewrite Hrun in Hlen. simpl in Hlen.
  rewrite length_replicate in Hlen. split; [done|].
  unfold overlap_inv in Hinv. simpl in Hinv.
  destruct Hinv as [[-> Hearly]|(-> & Hall & H200)].
  - split.
    + intros j t Hj Hfin. by destruct (Hearly j t Hj) as [->| ->].
    + intros (j & t & Hj & Hfin). by destruct (Hearly j t Hj) as [->| ->].
  - split; [|done].
    intros j t Hj Hfin.
    destruct (Hall j t Hj) as [[->| ->]|[->|(o & -> & [Ho|Ho])]]; try done;
      simpl; rewrite Ho; auto.
Qed.
End Overlap.

(** ** Claims served one after another *)

Section Serial.
Context {rt : Runtime}.

Lemma run_app rqs1 rqs2 (tbl : gmap Z Donation) :
  run (rqs1 ++ rqs2) tbl =
    let '(os1, tbl1) := run rqs1 tbl in
    let '(os2, tbl2) := run rqs2 tbl1 in
    (os1 ++ os2, tbl2).
Proof.
  revert tbl. induction rqs1 as [|rq rqs1 IH]; intros tbl; simpl.
  - by destruct (run rqs2 tbl).
  - destruct (handle rq tbl) as [o tbl']. rewrite IH.
    destruct (run rqs1 tbl') as [os1 tbl1]. by destruct (run rqs2 tbl1).
Qed.

Lemma run_claim donation_id io rqs (tbl : gmap Z Donation) :
  run (Claim donation_id io :: rqs) tbl =
    let '(o, tbl') := serve (claim_donation donation_id io) tbl in
    let '(os, tbl'') := run rqs tbl' in
    (o :: os, tbl'').
Proof. reflexivity. Qed.

Lemma run_refused (tbl : gmap Z Donation) donation_id d k :
  tbl !! donation_id = Some d → status d = Some "pending" →
  run (replicate k (Claim donation_id false)) tbl =
    (replicate k
       (Sent (Response
                (PyDict [("error", PyStr "Failed to update donation status")]) 500)),
     tbl).
Proof.
  intros Hd Hst. induction k as [|k IH]; [done|].
  cbn [replicate]. rewrite run_claim. unfold serve.
  rewrite (claim_pending_refused _ _ d) by done. cbn [table]. by rewrite IH.
Qed.

Lemma run_conflict (tbl : gmap Z Donation) donation_id d ios :
  tbl !! donation_id = Some d → status d ≠ Some "pending" →
  run (Claim donation_id <$> ios) tbl =
    (replicate (length ios)
       (Sent (Response
                (PyDict [("message",
                          PyStr ("Donation " +:+ pretty donation_id
                                 +:+ " is already " +:+ column_str (status d)))])
                400)),
     tbl).
Proof.
  intros Hd Hst. induction ios as [|io ios IH]; [done|].
  rewrite fmap_cons, run_claim. unfold serve.
  rewrite (claim_not_pending _ _ io d) by done. cbn [table]. by rewrite IH.
Qed.

Lemma successes_app os1 os2 : successes (os1 ++ os2) = (successes os1 + successes os2)%nat.
Proof. unfold successes. by rewrite filter_app, length_app. Qed.

Lemma successes_replicate o n :
  outcome_code o ≠ 200 → successes (replicate n o) = 0%nat.
Proof.
  intros Ho. unfold successes. induction n as [|n IH]; [done|].
  simpl. by rewrite filter_cons_False.
Qed.
End Serial.

Section ClaimsOfOneRecord.
Context {rt : Runtime}.

(** C8, as the code has it. Claims of one pending record that are served
    one after another: the first whose commit goes through is answered
    200, those before it 500, those after it the 400 conflict, so exactly
    one succeeds, and the record ends claimed. Claims whose steps
    alternate (commits going through): every answer is a 200 or a 400,
    and once one is answered the record is claimed and at least one
    request got a 200. *)
Theorem claims_of_one_pending_record (tbl : gmap Z Donation) donation_id d :
  tbl !! donation_id = Some d → status d = Some "pending" →
  (∀ k rest,
     run (Claim donation_id <$> (replicate k false ++ true :: rest)) tbl =
       (replicate k
          (Sent (Response
                   (PyDict [("error", PyStr "Failed to update donation status")])
                   500))
        ++ Sent (Response
                   (PyDict [("message",
                             PyStr ("Donation " +:+ pretty donation_id
                                    +:+ " claimed successfully"))]) 200)
        :: replicate (length rest)
             (Sent (Response
                      (PyDict [("message",
                                PyStr ("Donation " +:+ pretty donation_id
                                       +:+ " is already claimed"))]) 400)),
        <[donation_id := with_status "claimed" d]> tbl)
     ∧ successes
         (run (Claim donation_id <$> (replicate k false ++ true :: rest)) tbl).1
       = 1%nat)
  ∧ (∀ n schedule tbl' ts,
       interleave schedule (tbl, replicate n (Waiting donation_id true)) = (tbl', ts) →
       length ts = n
       ∧ (∀ j t, ts !! j = Some t → finished t = true →
                 answered 200 t = true ∨ answered 400 t = true)
       ∧ ((∃ j t, ts !! j = Some t ∧ finished t = true) →
          tbl' = <[donation_id := with_status "claimed" d]> tbl
          ∧ ∃ j t, ts !! j = Some t ∧ answered 200 t = true)).
Proof.
  intros Hd Hst. split.
  - intros k rest.
    match goal with |- ?lhs = ?rhs ∧ _ => assert (lhs = rhs) as Hrun end;
      [|split; [exact Hrun|rewrite Hrun]].
    + rewrite fmap_app, fmap_replicate, fmap_cons, run_app.
      rewrite (run_refused _ _ d) by done.
      rewrite run_claim. unfold serve.
      rewrite (claim_pending_committed _ _ d) by done. cbn [table].
      rewrite (run_conflict _ _ (with_status "claimed" d))
        by (by rewrite ?lookup_insert_eq).
      reflexivity.
    + cbn [fst]. rewrite successes_app, successes_replicate by (simpl; lia).
      change (successes (?o :: ?os)) with (successes ([o] ++ os)).
      rewrite successes_app, successes_replicate by (simpl; lia).
      reflexivity.
  - intros n schedule tbl' ts. by apply overlapping_claims.
Qed.
End ClaimsOfOneRecord.

Lemma claims_of_one_pending_record_witness :
  (run (rt := example_runtime) [Claim 1 false; Claim 1 true; Claim 1 true; Claim 1 false]
     sample_table).2 = <[1 := with_status "claimed" sample_row]> sample_table
  ∧ successes
      (run (rt := example_runtime)
         [Claim 1 false; Claim 1 true; Claim 1 true; Claim 1 false] sample_table).1
    = 1%nat.
Proof.
  destruct (proj1 (claims_of_one_pending_record (rt := example_runtime)
                     sample_table 1 sample_row eq_refl eq_refl) 1%nat [true; false])
    as [Hrun Hone].
  split; [|exact Hone].
  exact (f_equal snd Hrun).
Defined.

(** C8 as stated fails. Two claims of the pending record 1: both look the
    record up before either commits, both find it pending, and both are
    answered 200. *)
Lemma overlapping_claims_both_succeed :
  ¬ (∀ (tbl : gmap Z Donation) donation_id d n schedule tbl' ts,
       tbl !! donation_id = Some d → status d = Some "pending" →
       interleave (rt := example_runtime) schedule
         (tbl, replicate n (Waiting donation_id true)) = (tbl', ts) →
       (∀ j t, ts !! j = Some t → finished t = true) →
       count_answered 200 ts = 1%nat
       ∧ (count_answered 400 ts + count_answered 500 ts = n - 1)%nat
       ∧ (status <$> tbl' !! donation_id) = Some (Some "claimed")).
Proof.
  intros Hclaim.
  destruct (Hclaim sample_table 1 sample_row 2%nat [0; 1; 0; 1]%nat
              _ _ eq_refl eq_refl (surjective_pairing _)) as [Hone _].
  - intros j t Hj. vm_compute in Hj.
    destruct j as [|[|j]]; [by injection Hj as <-..|done].
  - vm_compute in Hone. discriminate.
Qed.


(** * Further properties of the handlers *)

(** ** Listing *)

Lemma column_inj v1 v2 : column v1 = column v2 → v1 = v2.
Proof. destruct v1, v2; simpl; congruence. Qed.

(** X2. [to_dict] always yields the same thirteen keys, in the order of
    the source, and loses nothing: two records with the same dict are the
    same record. *)
Theorem to_dict_keys_and_injective :
  (∀ d, dict_keys (to_dict d) =
          ["id"; "name"; "donor"; "donor_phone"; "donorAddress"; "receiverAddress";
           "receiverPhone"; "servings"; "distance"; "readyTime"; "status"; "icon";
           "foodType"])
  ∧ (∀ d1 d2, to_dict d1 = to_dict d2 → d1 = d2).
Proof.
  split; [done|].
  intros [] []. unfold to_dict. simpl. intros H. injection H as Hid Hname.
  repeat match goal with
         | H : column _ = column _ |- _ => apply column_inj in H
         end.
  by subst.
Qed.

Lemma listed_items (tbl : gmap Z Donation) v :
  v ∈ to_dict <$> (snd <$> map_to_list tbl) ↔ ∃ k d, tbl !! k = Some d ∧ v = to_dict d.
Proof.
  rewrite list_elem_of_fmap. split.
  - intros (d & -> & Hd). apply list_elem_of_fmap in Hd as ([k d'] & -> & Hkd).
    apply elem_of_map_to_list in Hkd. by exists k, d'.
  - intros (k & d & Hk & ->). exists d. split; [done|].
    apply list_elem_of_fmap. exists (k, d). split; [done|].
    by apply elem_of_map_to_list.
Qed.

Lemma listed_length (tbl : gmap Z Donation) :
  length (to_dict <$> (snd <$> map_to_list tbl)) = size tbl.
Proof. by rewrite !length_fmap, length_map_to_list. Qed.

Section Listing.
Context {rt : Runtime}.

(** X1. Listing answers 200 with one dict per stored record, no more and
    no less, and leaves the table as it was, so listing again gives the
    same answer. *)
Theorem get_donations_lists_every_record (tbl : gmap Z Donation) :
  ∃ items,
    serve get_donations tbl = (Sent (Response (PyList items) 200), tbl)
    ∧ length items = size tbl
    ∧ (∀ v, v ∈ items ↔ ∃ k d, tbl !! k = Some d ∧ v = to_dict d)
    ∧ (run [List_; List_] tbl).1
      = [Sent (Response (PyList items) 200); Sent (Response (PyList items) 200)].
Proof.
  exists (to_dict <$> (snd <$> map_to_list tbl)). split; [done|].
  split; [apply listed_length|]. split; [apply listed_items|done].
Qed.
End Listing.

(** ** Creating *)

Section CreateMore.
Context {rt : Runtime}.

(** Only an object that has 'quantity' is ever answered 201. *)
Lemma created_payload request rnd io (tbl : gmap Z Donation) o tbl' :
  serve (add_donation request rnd io) tbl = (o, tbl') →
  outcome_code o = 201 →
  ∃ kv q, request = Json (PyDict kv) ∧ dict_lookup "quantity" kv = Some q.
Proof.
  unfold serve. intros Hserve Hcode.
  destruct request as [| |data]; try by injection Hserve as <- <-.
  destruct (missing_required_data data) as [[|]|e] eqn:Hm.
  - rewrite add_donation_rejected in Hserve by done.
    by injection Hserve as <- <-.
  - destruct data as [| | | | |l|kv];
      try (unfold add_donation, lift, mbind, M_bind in Hserve;
           cbn [request_json] in Hserve; rewrite Hm in Hserve; simpl in Hserve;
           by injection Hserve as <- <-).
    apply missing_required_data_false_dict in Hm as [q Hq]. by exists kv, q.
  - unfold add_donation, lift, mbind, M_bind in Hserve.
    cbn [request_json] in Hserve. rewrite Hm in Hserve.
    injection Hserve as <- <-. by destruct e.
Qed.

(** The columns [insert_row_columns] leaves out. *)
Lemma insert_row_contacts pk kw row :
  insert_row pk kw = Return row →
  bind_text (Kw.foodType kw) = Some (foodType row)
  ∧ bind_text (Kw.donorAddress kw) = Some (donorAddress row)
  ∧ bind_text (Kw.donor_phone kw) = Some (donor_phone row)
  ∧ bind_text (Kw.receiverAddress kw) = Some (receiverAddress row)
  ∧ bind_text (Kw.receiverPhone kw) = Some (receiverPhone row).
Proof.
  unfold insert_row.
  destruct (bind_text (Kw.name kw)) as [n|]; simpl; [|done].
  destruct (bind_text (Kw.servings kw)) as [sv|]; simpl; [|done].
  destruct (bind_text (Kw.readyTime kw)) as [rd|]; simpl; [|done].
  destruct (bind_text (Kw.foodType kw)) as [ft|]; simpl; [|done].
  destruct (bind_text (Kw.donor kw)) as [dn|]; simpl; [|done].
  destruct (bind_text (Kw.donorAddress kw)) as [da|]; simpl; [|done].
  destruct (bind_text (Kw.donor_phone kw)) as [dp|]; simpl; [|done].
  destruct (bind_text (Kw.receiverAddress kw)) as [ra|]; simpl; [|done].
  destruct (bind_text (Kw.receiverPhone kw)) as [rp|]; simpl; [|done].
  destruct (bind_text (Kw.distance kw)) as [di|]; simpl; [|done].
  destruct n as [n|]; [|done].
  intros [= <-]. simpl. by repeat split.
Qed.

(** A NULL name never becomes a row. *)
Lemma insert_row_null_name pk kw :
  Kw.name kw = PyNone → ∃ e, insert_row pk kw = Raise e.
Proof.
  intros Hname. unfold insert_row. rewrite Hname. simpl.
  repeat match goal with
         | |- context [bind_text ?v] =>
             destruct (bind_text v); simpl; [|by eexists]
         end.
  by eexists.
Qed.

(** X6. An empty or falsy payload of any type (the empty object, the
    empty list, the empty string, zero, false, null), a list without the
    element 'quantity' and a string without that substring are all answered
    400 with the table as it was. *)
Theorem falsy_payload_rejected data rnd io (tbl : gmap Z Donation) :
  truthy data = false
  ∨ (∃ l, data = PyList l ∧ existsb (str_equals "quantity") l = false)
  ∨ (∃ s, data = PyStr s ∧ substring_of "quantity" s = false) →
  serve (add_donation data rnd io) tbl =
    (Sent (Response (PyDict [("error", PyStr "Missing required data")]) 400), tbl).
Proof.
  intros Hdata. unfold serve. rewrite add_donation_rejected; [done|].
  unfold missing_required_data.
  destruct Hdata as [->|[(l & -> & Hl)|(s & -> & Hs)]]; [done|..].
  - destruct (negb (truthy (PyList l))); [done|]. simpl. by rewrite Hl.
  - destruct (negb (truthy (PyStr s))); [done|]. cbn [py_in]. by rewrite Hs.
Qed.

(** X8. A payload that binds 'itemname' to null is not defaulted: the
    name column refuses NULL, so the request is answered 500 and the table
    stays as it was, whether or not the storage engine would commit. *)
Theorem null_itemname_fails kv rnd io (tbl : gmap Z Donation) :
  is_Some (dict_lookup "quantity" kv) →
  dict_lookup "itemname" kv = Some PyNone →
  serve (add_donation (PyDict kv) rnd io) tbl =
    (Sent (Response
             (PyDict [("error", PyStr "Failed to save donation to database")]) 500),
     tbl).
Proof.
  intros Hq Hname. unfold serve.
  rewrite (add_donation_dict kv rnd io tbl _ Hq (new_donation_kw_dict kv _)).
  edestruct (insert_row_null_name (fresh_key tbl)) as [e ->]; [|done].
  simpl. by rewrite Hname.
Qed.
End CreateMore.

Section CreateFields.
Context {rt : Runtime}.

(** X9. Whenever a record is stored (201), its id is the table's next
    key, its icon is the gift glyph, and each payload value that is a
    string goes to its column unchanged: 'itemname' to name, 'donorname' to
    donor, 'pickupTime' to readyTime, 'donorPhone' to donor_phone, and the
    address, receiver and food type keys to the columns of their name. A
    key bound to null is stored as NULL, defaults or not, and an absent
    key without a default is stored as NULL. *)
Theorem stored_fields_follow_payload kv rnd io (tbl : gmap Z Donation) o tbl' :
  serve (add_donation (PyDict kv) rnd io) tbl = (o, tbl') →
  outcome_code o = 201 →
  ∃ row,
    tbl' !! fresh_key tbl = Some row
    ∧ id row = fresh_key tbl
    ∧ icon row = Some "🎁"
    ∧ (∀ s, dict_lookup "itemname" kv = Some (PyStr s) → name row = s)
    ∧ (∀ key col,
         (key, col) ∈ [("donorname", donor); ("pickupTime", readyTime);
                       ("donorPhone", donor_phone); ("donorAddress", donorAddress);
                       ("receiverAddress", receiverAddress);
                       ("receiverPhone", receiverPhone); ("foodType", foodType)] →
         (∀ s, dict_lookup key kv = Some (PyStr s) → col row = Some s)
         ∧ (dict_lookup key kv = Some PyNone → col row = None))
    ∧ (∀ key col,
         (key, col) ∈ [("donorPhone", donor_phone); ("donorAddress", donorAddress);
                       ("receiverAddress", receiverAddress);
                       ("receiverPhone", receiverPhone); ("foodType", foodType)] →
         dict_lookup key kv = None → col row = None).
Proof.
  intros Hserve Hcode.
  destruct (created_payload _ _ _ _ _ _ Hserve Hcode) as (kv' & q & [= <-] & Hq).
  unfold serve in Hserve.
  rewrite (add_donation_dict kv rnd io tbl _ (mk_is_Some _ _ Hq)
             (new_donation_kw_dict kv _)) in Hserve.
  destruct (insert_row _ _) as [row|e] eqn:Hrow;
    [destruct io|]; injection Hserve as <- <-; try done.
  exists row. rewrite lookup_insert_eq.
  pose proof (insert_row_columns _ _ _ Hrow)
    as (Hid & _ & Hicon & Hname & _ & Hready & Hdonor & _).
  pose proof (insert_row_contacts _ _ _ Hrow) as (Hft & Hda & Hdp & Hra & Hrp).
  simpl in *.
  split; [done|]. split; [done|]. split; [done|]. split; [|split].
  - intros s Hs. rewrite Hs in Hname. simpl in Hname. congruence.
  - intros key col Hin. set_unfold in Hin.
    destruct_or!; simplify_eq; split; intros;
      repeat match goal with
             | H : dict_lookup ?k kv = _, H' : context [dict_lookup ?k kv] |- _ =>
                 rewrite H in H'
             end; simpl in *; congruence.
  - intros key col Hin Hnone. set_unfold in Hin.
    destruct_or!; simplify_eq;
      repeat match goal with
             | H : dict_lookup ?k kv = _, H' : context [dict_lookup ?k kv] |- _ =>
                 rewrite H in H'
             end; simpl in *; congruence.
Qed.

(** X10. [add_donation] reads nine keys of the payload and no other: two
    objects that agree on these keys get the same answer and leave the
    same table, so a client cannot set the id, the status, the icon or the
    distance of the record. *)
Theorem unread_keys_ignored kv1 kv2 rnd io (tbl : gmap Z Donation) :
  (∀ k, k ∈ read_keys → dict_lookup k kv1 = dict_lookup k kv2) →
  serve (add_donation (PyDict kv1) rnd io) tbl
  = serve (add_donation (PyDict kv2) rnd io) tbl.
Proof.
  intros Hsame.
  assert (∀ k, k ∈ read_keys → dict_lookup k kv2 = dict_lookup k kv1) as Hback
    by (intros; symmetry; auto).
  unfold read_keys in Hback.
  pose proof (Hback "quantity" ltac:(set_solver)) as Hq.
  pose proof (Hback "donorAddress" ltac:(set_solver)) as Hda.
  pose proof (Hback "donorname" ltac:(set_solver)) as Hdn.
  pose proof (Hback "itemname" ltac:(set_solver)) as Hin.
  pose proof (Hback "donorPhone" ltac:(set_solver)) as Hdp.
  pose proof (Hback "receiverAddress" ltac:(set_solver)) as Hra.
  pose proof (Hback "receiverPhone" ltac:(set_solver)) as Hrp.
  pose proof (Hback "foodType" ltac:(set_solver)) as Hft.
  pose proof (Hback "pickupTime" ltac:(set_solver)) as Hpt.
  unfold serve.
  destruct (dict_lookup "quantity" kv1) as [q|] eqn:Hq1.
  - rewrite (add_donation_dict kv1 rnd io tbl _ (mk_is_Some _ _ Hq1)
               (new_donation_kw_dict kv1 _)).
    rewrite (add_donation_dict kv2 rnd io tbl _ (mk_is_Some _ _ Hq)
               (new_donation_kw_dict kv2 _)).
    rewrite Hq, Hda, Hdn, Hin, Hdp, Hra, Hrp, Hft, Hpt, Hq1. done.
  - rewrite !add_donation_rejected; [done|..];
      by apply missing_required_data_lacking.
Qed.
End CreateFields.

(** ** What one request and then another do *)

Section Composition.
Context {rt : Runtime}.

(** X3. A record that was just created is listed: after a 201 the next
    listing holds the dict the response carried as its data, still holds
    every entry of the listing before, and is one entry longer. *)
Theorem created_record_is_listed data rnd io (tbl : gmap Z Donation) o tbl' :
  serve (add_donation data rnd io) tbl = (o, tbl') →
  outcome_code o = 201 →
  ∃ row items items',
    o = Sent (Response
                (PyDict [("message", PyStr "Donation successfully recorded");
                         ("data", to_dict row)]) 201)
    ∧ serve get_donations tbl = (Sent (Response (PyList items) 200), tbl)
    ∧ serve get_donations tbl' = (Sent (Response (PyList items') 200), tbl')
    ∧ to_dict row ∈ items'
    ∧ (∀ v, v ∈ items → v ∈ items')
    ∧ length items' = S (length items).
Proof.
  intros Hserve Hcode.
  destruct (created_payload _ _ _ _ _ _ Hserve Hcode) as (kv & q & -> & Hq).
  destruct (add_donation_stored kv q rnd io tbl o tbl' Hq Hserve Hcode)
    as (row & -> & -> & Hfresh & _).
  exists row, (to_dict <$> (snd <$> map_to_list tbl)),
    (to_dict <$> (snd <$> map_to_list (<[fresh_key tbl := row]> tbl))).
  split; [done|]. split; [done|]. split; [done|]. split; [|split].
  - apply listed_items. exists (fresh_key tbl), row. by rewrite lookup_insert_eq.
  - intros v (k & d & Hk & ->)%listed_items. apply listed_items.
    exists k, d. split; [|done]. rewrite lookup_insert_ne; [done|]. congruence.
  - rewrite !listed_length. by apply map_size_insert_None.
Qed.

(** X11. The status codes of the API: listing answers 200; creating
    answers 201, 400, 415 or 500, the 415 being the answer to a request
    that carries no JSON; claiming answers 200, 400, 404 or 500; and a
    request answered 400, 404 or 415 leaves the table as it was. *)
Theorem status_codes rq (tbl : gmap Z Donation) :
  match rq with
  | List_ => outcome_code (handle rq tbl).1 = 200
  | Create _ _ _ => outcome_code (handle rq tbl).1 ∈ [201; 400; 415; 500]
  | Claim _ _ => outcome_code (handle rq tbl).1 ∈ [200; 400; 404; 500]
  end
  ∧ (outcome_code (handle rq tbl).1 = 400 ∨ outcome_code (handle rq tbl).1 = 404
     ∨ outcome_code (handle rq tbl).1 = 415 →
     (handle rq tbl).2 = tbl)
  ∧ outcome_code (handle (Create NotJson 0 true) tbl).1 = 415.
Proof.
  apply and_assoc. split; [|done].
  destruct rq as [|request rnd io|donation_id io]; simpl.
  - split; [done|]. intros [?|[?|?]]; done.
  - unfold serve. destruct (add_donation _ _ _ _) as [r w] eqn:Hrun.
    apply add_donation_cases in Hrun
      as [(Ht & _ & [->|[->|[e ->]]])|(row & -> & _ & Ht & _)];
      try destruct e; simpl;
      (split; [set_solver|]); try done; intros [?|[?|?]]; done.
  - unfold serve. destruct (claim_donation _ _ _) as [r w] eqn:Hrun.
    apply claim_donation_cases in Hrun
      as [(Ht & _ & [[b ->] | [[b ->] | [->| ->]]])
         |(d & b & -> & _ & _ & _ & Ht & _)];
      simpl; (split; [set_solver|]); try done; intros [?|[?|?]]; done.
Qed.

(** X12. Create and claim compose: after a 201, a claim of the id the
    response carries whose commit goes through is answered 200 and a
    further claim of it 400, and the table then holds the created record
    with status 'claimed' under that id. *)
Theorem create_then_claim data rnd io io' (tbl : gmap Z Donation) o tbl' :
  serve (add_donation data rnd io) tbl = (o, tbl') →
  outcome_code o = 201 →
  ∃ row,
    o = Sent (Response
                (PyDict [("message", PyStr "Donation successfully recorded");
                         ("data", to_dict row)]) 201)
    ∧ run [Claim (id row) true; Claim (id row) io'] tbl' =
        ([Sent (Response
                  (PyDict [("message",
                            PyStr ("Donation " +:+ pretty (id row)
                                   +:+ " claimed successfully"))]) 200);
          Sent (Response
                  (PyDict [("message",
                            PyStr ("Donation " +:+ pretty (id row)
                                   +:+ " is already claimed"))]) 400)],
         <[id row := with_status "claimed" row]> tbl).
Proof.
  intros Hserve Hcode.
  destruct (created_payload _ _ _ _ _ _ Hserve Hcode) as (kv & q & -> & Hq).
  pose proof Hserve as Hserve'. unfold serve in Hserve'.
  rewrite (add_donation_dict kv rnd io tbl _ (mk_is_Some _ _ Hq)
             (new_donation_kw_dict kv _)) in Hserve'.
  destruct (insert_row _ _) as [row|e] eqn:Hrow;
    [destruct io|]; injection Hserve' as <- <-; try done.
  apply insert_row_columns in Hrow as (Hid & Hst & _).
  exists row. split; [done|]. rewrite Hid.
  rewrite run_claim. unfold serve.
  rewrite (claim_pending_committed _ _ row) by (by rewrite ?lookup_insert_eq).
  cbn [table]. rewrite run_claim. unfold serve.
  rewrite (claim_not_pending _ _ io' (with_status "claimed" row))
    by (by rewrite ?lookup_insert_eq).
  cbn [table run]. by rewrite !insert_insert_eq.
Qed.
End Composition.

(** ** Whole runs *)

(** The largest key is a key, and there is one unless the table is empty. *)
Lemma largest_key_is_key (tbl : gmap Z Donation) :
  (largest_key tbl = None → tbl = ∅)
  ∧ (∀ m, largest_key tbl = Some m → is_Some (tbl !! m)).
Proof.
  unfold largest_key.
  apply (map_fold_weak_ind
    (λ (r : option Z) (m : gmap Z Donation),
       (r = None → m = ∅) ∧ (∀ b, r = Some b → is_Some (m !! b)))).
  - split; [done|]. intros b; discriminate.
  - intros i x m r _ [_ IH]. split; [done|].
    intros b [= <-]. apply lookup_insert_is_Some'.
    destruct r as [b0|]; simpl; [|by left].
    destruct (Z.max_spec i b0) as [[_ ->]|[_ ->]]; [right; by apply IH|by left].
Qed.

(** In a table whose keys are 1 to its size, the next key is the size
    plus one. *)
Lemma fresh_key_consecutive (tbl : gmap Z Donation) :
  (∀ k, is_Some (tbl !! k) ↔ 1 ≤ k ≤ Z.of_nat (size tbl)) →
  fresh_key tbl = Z.of_nat (size tbl) + 1.
Proof.
  intros Hkeys. unfold fresh_key.
  destruct (largest_key_is_key tbl) as [Hnone Hsome].
  destruct (largest_key tbl) as [m|] eqn:Hm; simpl.
  - pose proof (proj1 (Hkeys m) (Hsome m eq_refl)) as Hrange.
    destruct (largest_key_bounds tbl (Z.of_nat (size tbl))) as (m' & Hm' & Hle).
    { apply Hkeys. lia. }
    rewrite Hm in Hm'. injection Hm' as <-. lia.
  - by rewrite (Hnone eq_refl), map_size_empty.
Qed.

Section Runs.
Context {rt : Runtime}.

(** A request answered 201 is a create, and the row it adds. *)
Lemma handle_created rq (tbl : gmap Z Donation) o tbl' :
  handle rq tbl = (o, tbl') → outcome_code o = 201 →
  ∃ data rnd io row,
    rq = Create data rnd io
    ∧ tbl' = <[fresh_key tbl := row]> tbl
    ∧ tbl !! fresh_key tbl = None
    ∧ id row = fresh_key tbl
    ∧ status row = Some "pending"
    ∧ distance row = Some (calculate_distance_to_receiver PyNone rnd).
Proof.
  destruct rq as [|data rnd io|donation_id io]; simpl.
  - rewrite get_donations_reads. by intros [= <- <-].
  - intros Hserve Hcode.
    destruct (created_payload _ _ _ _ _ _ Hserve Hcode) as (kv & q & -> & Hq).
    destruct (add_donation_stored kv q rnd io tbl o tbl' Hq Hserve Hcode)
      as (row & _ & -> & Hfresh & _ & Hst & Hdist & _).
    exists (PyDict kv), rnd, io, row. repeat split; try done.
    unfold serve in Hserve.
    rewrite (add_donation_dict kv rnd io tbl _ (mk_is_Some _ _ Hq)
               (new_donation_kw_dict kv _)) in Hserve.
    destruct (insert_row _ _) as [row'|e] eqn:Hrow;
      [destruct io|]; injection Hserve as Ho Ht; subst o; try done.
    apply insert_row_columns in Hrow as (Hid & _).
    assert (row' = row) as <-; [|done].
    apply (f_equal (λ m : gmap Z Donation, m !! fresh_key tbl)) in Ht.
    rewrite !lookup_insert_eq in Ht. congruence.
  - unfold serve. destruct (claim_donation _ _ _) as [r w] eqn:Hrun.
    apply claim_donation_cases in Hrun
      as [(_ & _ & [[b ->] | [[b ->] | [->| ->]]])|(d & b & -> & _)];
      by intros [= <- <-].
Qed.

(** One request keeps every row, and changes it only from pending to
    claimed. *)
Lemma handle_keeps_row rq (tbl : gmap Z Donation) k d :
  tbl !! k = Some d →
  ∃ d1, (handle rq tbl).2 !! k = Some d1
        ∧ (d1 = d ∨ (status d = Some "pending" ∧ d1 = with_status "claimed" d)).
Proof.
  intros Hk. destruct (handle rq tbl) as [o tbl'] eqn:Hh. simpl.
  apply handle_cases in Hh
    as [[-> _]|[(_ & row & -> & Hfresh & Hst)|(_ & k0 & d0 & Hd0 & Hst & ->)]].
  - exists d. auto.
  - exists d. split; [|by left]. rewrite lookup_insert_ne; [done|]. congruence.
  - destruct (decide (k0 = k)) as [->|Hne].
    + rewrite Hk in Hd0. injection Hd0 as <-.
      exists (with_status "claimed" d). rewrite lookup_insert_eq. auto.
    + exists d. by rewrite lookup_insert_ne; auto.
Qed.

(** X5. Nothing the API does deletes a record or changes a field other
    than the status: whatever requests follow, a stored record is still
    stored under its id, either exactly as it was or, if it was pending, as
    it was but for the status 'claimed'. A claimed record stays claimed. *)
Theorem records_persist rqs (tbl : gmap Z Donation) k d :
  tbl !! k = Some d →
  ∃ d', (run rqs tbl).2 !! k = Some d'
        ∧ (d' = d ∨ (status d = Some "pending" ∧ d' = with_status "claimed" d)).
Proof.
  revert tbl d. induction rqs as [|rq rqs IH]; intros tbl d Hk.
  - exists d. auto.
  - simpl. destruct (handle_keeps_row rq tbl k d Hk) as (d1 & Hk1 & Hd1).
    destruct (handle rq tbl) as [o tbl']. simpl in Hk1.
    destruct (IH tbl' d1 Hk1) as (d' & Hk' & Hd').
    destruct (run rqs tbl') as [os tbl'']. simpl in *.
    exists d'. split; [done|].
    destruct Hd1 as [->|[Hst ->]]; [done|].
    destruct Hd' as [->|[Hst' _]]; [by right|done].
Qed.

(** Every successful create adds one record and nothing else adds or
    removes one. *)
Lemma handle_size rq (tbl : gmap Z Donation) :
  size (handle rq tbl).2
  = (size tbl + created [(handle rq tbl).1])%nat.
Proof.
  destruct (handle rq tbl) as [o tbl'] eqn:Hh. simpl. unfold created.
  pose proof Hh as Hcases. apply handle_cases in Hcases
    as [[-> Hne]|[(Hc & row & -> & Hfresh & _)|(Hc & k0 & d0 & Hd0 & _ & ->)]].
  - rewrite filter_cons_False by done. simpl. lia.
  - rewrite filter_cons_True by done. simpl.
    rewrite map_size_insert_None by done. lia.
  - rewrite filter_cons_False by (rewrite Hc; done). simpl.
    rewrite map_size_insert_Some by (by eexists). lia.
Qed.

Lemma created_cons o os : created (o :: os) = (created [o] + created os)%nat.
Proof.
  unfold created. destruct (decide (outcome_code o = 201)).
  - by rewrite !filter_cons_True by done.
  - by rewrite !filter_cons_False by done.
Qed.

(** The keys are 1 to the size and each row carries its key as its id. *)
Lemma handle_keeps_ids rq (tbl : gmap Z Donation) :
  (∀ k, is_Some (tbl !! k) ↔ 1 ≤ k ≤ Z.of_nat (size tbl)) →
  (∀ k d, tbl !! k = Some d → id d = k) →
  (∀ k, is_Some ((handle rq tbl).2 !! k)
        ↔ 1 ≤ k ≤ Z.of_nat (size (handle rq tbl).2))
  ∧ (∀ k d, (handle rq tbl).2 !! k = Some d → id d = k).
Proof.
  intros Hkeys Hids.
  destruct (handle rq tbl) as [o tbl'] eqn:Hh. simpl.
  pose proof Hh as Hcases. apply handle_cases in Hcases
    as [[-> Hne]|[(Hc & _)|(Hc & k0 & d0 & Hd0 & _ & ->)]].
  - done.
  - destruct (handle_created rq tbl o tbl' Hh Hc)
      as (data & rnd & io & row & _ & -> & Hfresh & Hid & _).
    pose proof (fresh_key_consecutive tbl Hkeys) as Hnext.
    split.
    + intros k. rewrite lookup_insert_is_Some', Hkeys.
      rewrite map_size_insert_None by done. lia.
    + intros k d. rewrite lookup_insert_Some.
      intros [[<- <-]|[_ Hk]]; [done|by apply Hids].
  - split.
    + intros k. rewrite lookup_insert_is_Some', Hkeys.
      rewrite map_size_insert_Some by (by eexists).
      assert (is_Some (tbl !! k0)) as Hk0%Hkeys by (by eexists).
      split; [intros [<-|?]; lia|by right].
    + intros k d. rewrite lookup_insert_Some.
      intros [[<- <-]|[_ Hk]]; [by apply (Hids k0 d0)|by apply Hids].
Qed.

(** X4. Ids are handed out in order and never reused: after any requests
    on an empty table the records are exactly those with keys 1 to n,
    where n is the number of requests answered 201, and each record's id
    is its key. *)
Theorem ids_count_up rqs :
  size (run rqs ∅).2 = created (run rqs ∅).1
  ∧ (∀ k, is_Some ((run rqs ∅).2 !! k)
          ↔ 1 ≤ k ≤ Z.of_nat (created (run rqs ∅).1))
  ∧ (∀ k d, (run rqs ∅).2 !! k = Some d → id d = k).
Proof.
  assert (∀ rqs (tbl : gmap Z Donation),
            (∀ k, is_Some (tbl !! k) ↔ 1 ≤ k ≤ Z.of_nat (size tbl)) →
            (∀ k d, tbl !! k = Some d → id d = k) →
            size (run rqs tbl).2 = (size tbl + created (run rqs tbl).1)%nat
            ∧ (∀ k, is_Some ((run rqs tbl).2 !! k)
                    ↔ 1 ≤ k ≤ Z.of_nat (size (run rqs tbl).2))
            ∧ (∀ k d, (run rqs tbl).2 !! k = Some d → id d = k)) as Hgen.
  { clear rqs. induction rqs as [|rq rqs IH]; intros tbl Hkeys Hids.
    - simpl. split; [unfold created; simpl; lia|done].
    - simpl. pose proof (handle_size rq tbl) as Hsize.
      pose proof (handle_keeps_ids rq tbl Hkeys Hids) as [Hkeys' Hids'].
      destruct (handle rq tbl) as [o tbl']. simpl in *.
      specialize (IH tbl' Hkeys' Hids') as (IHsize & IHkeys & IHids).
      destruct (run rqs tbl') as [os tbl'']. simpl in *.
      split; [rewrite (created_cons o os); lia|done]. }
  destruct (Hgen rqs ∅) as (Hsize & Hkeys & Hids).
  - intros k. rewrite lookup_empty, map_size_empty. split; [by intros []|lia].
  - intros k d. by rewrite lookup_empty.
  - rewrite map_size_empty in Hsize. simpl in Hsize.
    split; [done|]. split; [|done]. intros k. by rewrite Hkeys, Hsize.
Qed.
End Runs.

Section Distances.
Context {rt : Runtime}.

Lemma drawn_distance_well_formed rnd d :
  (rnd < 2 ^ 53)%N →
  distance d = Some (calculate_distance_to_receiver PyNone rnd) →
  distance_well_formed d.
Proof.
  intros Hrnd Hd.
  destruct (distance_of_sample _ (random_uniform_range rnd Hrnd))
    as (Hmatch & v & Hv & Hlo & Hhi & _).
  exists (calculate_distance_to_receiver PyNone rnd), v. by repeat split.
Qed.

Lemma handle_keeps_distances rq (tbl : gmap Z Donation) :
  draw_in_range rq →
  map_Forall (λ _, distance_well_formed) tbl →
  map_Forall (λ _, distance_well_formed) (handle rq tbl).2.
Proof.
  intros Hdraw Hinv.
  destruct (handle rq tbl) as [o tbl'] eqn:Hh. simpl.
  pose proof Hh as Hcases. apply handle_cases in Hcases
    as [[-> _]|[(Hc & _)|(_ & k0 & d0 & Hd0 & _ & ->)]].
  - done.
  - destruct (handle_created rq tbl o tbl' Hh Hc)
      as (data & rnd & io & row & -> & -> & _ & _ & _ & Hdist).
    apply map_Forall_insert_2; [|done].
    by apply (drawn_distance_well_formed rnd).
  - apply map_Forall_insert_2; [|done]. by apply (Hinv k0 d0).
Qed.

(** X14. Every record the API stores has a well-formed distance: after
    any requests on an empty table, with draws the generator can make,
    each record's distance is a string of the pattern
    [^[0-9]+\.[0-9] mi$] showing a number from 0.5 to 10.0, and claiming
    does not change it. *)
Theorem stored_distances_well_formed rqs k d :
  Forall draw_in_range rqs →
  (run rqs ∅).2 !! k = Some d →
  distance_well_formed d.
Proof.
  intros Hdraws Hk.
  assert (∀ rqs (tbl : gmap Z Donation),
            Forall draw_in_range rqs →
            map_Forall (λ _, distance_well_formed) tbl →
            map_Forall (λ _, distance_well_formed) (run rqs tbl).2) as Hgen.
  { clear. induction rqs as [|rq rqs IH]; intros tbl Hdraws Hinv; [done|].
    apply Forall_cons in Hdraws as [Hdraw Hdraws]. simpl.
    pose proof (handle_keeps_distances rq tbl Hdraw Hinv) as Hstep.
    destruct (handle rq tbl) as [o tbl']. specialize (IH tbl' Hdraws Hstep).
    by destruct (run rqs tbl') as [os tbl'']. }
  by apply (Hgen rqs ∅ Hdraws (map_Forall_empty _) k d).
Qed.
End Distances.

Section ClaimMore.
Context {rt : Runtime}.

(** A claim served alone, by what the table holds under the id. *)
Lemma claim_served donation_id io (tbl : gmap Z Donation) :
  serve (claim_donation donation_id io) tbl =
    match tbl !! donation_id with
    | None =>
        (if sqlite_int donation_id
         then Sent (Response (PyDict [("error", PyStr "Donation not found")]) 404)
         else ServerError OverflowError,
         tbl)
    | Some d =>
        if decide (status d = Some "pending") then
          if io then
            (Sent (Response
                     (PyDict [("message",
                               PyStr ("Donation " +:+ pretty donation_id
                                      +:+ " claimed successfully"))]) 200),
             <[donation_id := with_status "claimed" d]> tbl)
          else
            (Sent (Response
                     (PyDict [("error", PyStr "Failed to update donation status")])
                     500),
             tbl)
        else
          (Sent (Response
                   (PyDict [("message",
                             PyStr ("Donation " +:+ pretty donation_id
                                    +:+ " is already " +:+ column_str (status d)))])
                   400),
           tbl)
    end.
Proof.
  unfold serve. destruct (tbl !! donation_id) as [d|] eqn:Hd.
  - destruct (decide (status d = Some "pending")) as [Hst|Hst].
    + destruct io.
      * by rewrite (claim_pending_committed _ _ d).
      * by rewrite (claim_pending_refused _ _ d).
    + by rewrite (claim_not_pending _ _ io d).
  - destruct (sqlite_int donation_id) eqn:Hint.
    + by rewrite claim_not_found.
    + by rewrite claim_overflow.
Qed.

(** X13. Claims of different records do not interfere: served in either
    order they get the same two answers and leave the same table. *)
Theorem claims_of_different_records_commute a b io_a io_b (tbl : gmap Z Donation) :
  a ≠ b →
  ∃ o_a o_b tbl',
    run [Claim a io_a; Claim b io_b] tbl = ([o_a; o_b], tbl')
    ∧ run [Claim b io_b; Claim a io_a] tbl = ([o_b; o_a], tbl').
Proof.
  intros Hne. rewrite !run_claim, !claim_served.
  destruct (tbl !! a) as [da|] eqn:Ha; destruct (tbl !! b) as [db|] eqn:Hb;
    destruct (sqlite_int a) eqn:Hint_a, (sqlite_int b) eqn:Hint_b;
    repeat case_decide; destruct io_a, io_b;
    rewrite ?run_claim, ?claim_served, ?lookup_insert_ne, ?Ha, ?Hb,
      ?Hint_a, ?Hint_b by done;
    repeat case_decide; try done; cbn [run];
    try (eexists _, _, _; split; reflexivity).
  all: eexists _, _, _; split; [reflexivity|]; by rewrite insert_insert_ne.
Qed.

(** X15. A record that was just claimed is listed as claimed: after a
    200 the next listing holds the record's dict with status 'claimed',
    still holds the dict of every other record, and is as long as the
    table was. *)
Theorem claimed_record_is_listed donation_id io (tbl : gmap Z Donation) o tbl' :
  serve (claim_donation donation_id io) tbl = (o, tbl') →
  outcome_code o = 200 →
  ∃ d items',
    tbl !! donation_id = Some d
    ∧ serve get_donations tbl' = (Sent (Response (PyList items') 200), tbl')
    ∧ to_dict (with_status "claimed" d) ∈ items'
    ∧ (∀ k d0, k ≠ donation_id → tbl !! k = Some d0 → to_dict d0 ∈ items')
    ∧ length items' = size tbl.
Proof.
  rewrite claim_served. intros Hserve Hcode.
  destruct (tbl !! donation_id) as [d|] eqn:Hd;
    [|destruct (sqlite_int donation_id); by injection Hserve as <- <-].
  case_decide; [destruct io|]; injection Hserve as <- <-; try done.
  exists d, (to_dict <$> (snd <$> map_to_list (<[donation_id := with_status "claimed" d]> tbl))).
  split; [done|]. split; [done|]. split; [|split].
  - apply listed_items. eexists _, _. by rewrite lookup_insert_eq.
  - intros k d0 Hk Hk0. apply listed_items. exists k, d0.
    by rewrite lookup_insert_ne.
  - rewrite listed_length. by apply map_size_insert_Some.
Qed.
End ClaimMore.

(** ** The further properties at sample inputs *)

Lemma created_record_is_listed_witness :
  ∃ row items items',
    sample_created.1
    = Sent (Response
              (PyDict [("message", PyStr "Donation successfully recorded");
                       ("data", to_dict row)]) 201)
    ∧ serve get_donations ∅
      = (Sent (Response (PyList items) 200), ∅)
    ∧ serve get_donations sample_created.2
      = (Sent (Response (PyList items') 200), sample_created.2)
    ∧ to_dict row ∈ items'
    ∧ (∀ v, v ∈ items → v ∈ items')
    ∧ length items' = S (length items).
Proof.
  apply (created_record_is_listed (rt := example_runtime)
           (PyDict sample_payload) sample_draw true ∅).
  - apply surjective_pairing.
  - vm_compute. reflexivity.
Defined.

Lemma records_persist_witness :
  ∃ d', (run (rt := example_runtime) [Claim 1 true; Claim 1 false; List_] sample_table).2
          !! 1 = Some d'
        ∧ (d' = sample_row
           ∨ (status sample_row = Some "pending"
              ∧ d' = with_status "claimed" sample_row)).
Proof.
  apply (records_persist (rt := example_runtime)
           [Claim 1 true; Claim 1 false; List_] sample_table 1 sample_row).
  reflexivity.
Defined.

Lemma falsy_payload_rejected_witness :
  serve (add_donation (rt := example_runtime) (PyDict []) sample_draw true) sample_table
  = (Sent (Response (PyDict [("error", PyStr "Missing required data")]) 400),
     sample_table)
  ∧ serve (add_donation (rt := example_runtime) (PyList [PyInt 3]) sample_draw true)
      sample_table
    = (Sent (Response (PyDict [("error", PyStr "Missing required data")]) 400),
       sample_table).
Proof.
  split.
  - apply (falsy_payload_rejected (rt := example_runtime)). by left.
  - apply (falsy_payload_rejected (rt := example_runtime)). right. left. by eexists.
Defined.

Lemma add_donation_not_an_object_witness :
  serve (add_donation (rt := example_runtime) (PyInt 5) sample_draw true) sample_table
  = (ServerError TypeError, sample_table)
  ∧ serve (add_donation (rt := example_runtime) (PyList [PyStr "quantity"])
             sample_draw true) sample_table
    = (ServerError AttributeError, sample_table)
  ∧ serve (add_donation (rt := example_runtime) (PyStr "quantity: 3")
             sample_draw true) sample_table
    = (ServerError AttributeError, sample_table).
Proof.
  destruct (add_donation_not_an_object (rt := example_runtime)
              sample_draw true sample_table) as (Hint & _ & Hlist & Hstr).
  split; [|split].
  - by apply Hint.
  - by apply Hlist.
  - by apply Hstr.
Defined.

Lemma null_itemname_fails_witness :
  serve (add_donation (rt := example_runtime)
           (PyDict [("quantity", PyInt 4); ("itemname", PyNone)]) sample_draw true)
    sample_table
  = (Sent (Response
             (PyDict [("error", PyStr "Failed to save donation to database")]) 500),
     sample_table).
Proof.
  apply (null_itemname_fails (rt := example_runtime)).
  - by eexists.
  - reflexivity.
Defined.

Ltac in_list :=
  first [apply list_elem_of_here | apply list_elem_of_further; in_list].

Lemma stored_fields_follow_payload_witness :
  ∃ row,
    (serve (add_donation (rt := example_runtime) (PyDict sample_full_payload) 7 true)
       sample_table).2 !! 2 = Some row
    ∧ id row = 2
    ∧ icon row = Some "🎁"
    ∧ name row = "Rice"
    ∧ donor row = Some "Asha"
    ∧ donor_phone row = Some "555-0101"
    ∧ readyTime row = None
    ∧ foodType row = None.
Proof.
  edestruct (stored_fields_follow_payload (rt := example_runtime)
               sample_full_payload 7 true sample_table)
    as (row & Hrow & Hid & Hicon & Hname & Hgiven & Habsent).
  - apply surjective_pairing.
  - vm_compute. reflexivity.
  - exists row. split; [exact Hrow|]. split; [exact Hid|]. split; [exact Hicon|].
    split; [by apply Hname|].
    split; [by apply (Hgiven "donorname" donor); [in_list|]|].
    split; [by apply (Hgiven "donorPhone" donor_phone); [in_list|]|].
    split; [by apply (Hgiven "pickupTime" readyTime); [in_list|]|].
    by apply (Habsent "foodType" foodType); [in_list|].
Defined.

Lemma unread_keys_ignored_witness :
  serve (add_donation (rt := example_runtime) (PyDict sample_full_payload) 7 true)
    sample_table
  = serve (add_donation (rt := example_runtime)
             (PyDict [("itemname", PyStr "Rice"); ("quantity", PyInt 12);
                      ("donorname", PyStr "Asha"); ("donorPhone", PyStr "555-0101");
                      ("pickupTime", PyNone)]) 7 true)
      sample_table.
Proof.
  apply (unread_keys_ignored (rt := example_runtime)).
  intros k Hk. unfold read_keys in Hk. set_unfold in Hk.
  destruct_or!; subst; reflexivity.
Defined.

Lemma create_then_claim_witness :
  ∃ row,
    sample_created.1
    = Sent (Response
              (PyDict [("message", PyStr "Donation successfully recorded");
                       ("data", to_dict row)]) 201)
    ∧ run (rt := example_runtime) [Claim (id row) true; Claim (id row) false]
        sample_created.2 =
        ([Sent (Response
                  (PyDict [("message",
                            PyStr ("Donation " +:+ pretty (id row)
                                   +:+ " claimed successfully"))]) 200);
          Sent (Response
                  (PyDict [("message",
                            PyStr ("Donation " +:+ pretty (id row)
                                   +:+ " is already claimed"))]) 400)],
         <[id row := with_status "claimed" row]> ∅).
Proof.
  apply (create_then_claim (rt := example_runtime)
           (PyDict sample_payload) sample_draw true false ∅).
  - apply surjective_pairing.
  - vm_compute. reflexivity.
Defined.

Lemma claims_of_different_records_commute_witness :
  ∃ o_a o_b tbl',
    run (rt := example_runtime) [Claim 1 true; Claim 2 true] sample_created.2
    = ([o_a; o_b], tbl')
    ∧ run (rt := example_runtime) [Claim 2 true; Claim 1 true] sample_created.2
      = ([o_b; o_a], tbl').
Proof.
  apply (claims_of_different_records_commute (rt := example_runtime)).
  discriminate.
Defined.

Lemma stored_distances_well_formed_witness : distance_well_formed sample_row.
Proof.
  apply (stored_distances_well_formed (rt := example_runtime)
           [Create (PyDict sample_payload) sample_draw true; List_] 1 sample_row).
  - repeat constructor.
  - vm_compute. reflexivity.
Defined.

Lemma claimed_record_is_listed_witness :
  ∃ d items',
    sample_table !! 1 = Some d
    ∧ serve get_donations
        (serve (claim_donation (rt := example_runtime) 1 true) sample_table).2
      = (Sent (Response (PyList items') 200),
         (serve (claim_donation (rt := example_runtime) 1 true) sample_table).2)
    ∧ to_dict (with_status "claimed" d) ∈ items'
    ∧ (∀ k d0, k ≠ 1 → sample_table !! k = Some d0 → to_dict d0 ∈ items')
    ∧ length items' = size sample_table.
Proof.
  apply (claimed_record_is_listed (rt := example_runtime) 1 true sample_table
           (serve (claim_donation (rt := example_runtime) 1 true) sample_table).1).
  - apply surjective_pairing.
  - vm_compute. reflexivity.
Defined.
